(** * Inventory system: the Product hierarchy and the Inventory store

    A shallow embedding of the core of [app.py] (classes [Product],
    [Electronics], [Grocery], [Clothing] and [Inventory]) and the
    properties of its specification.

    Conventions of the embedding.
    - A method that mutates [self] is a computation in a state and
      exception monad: it maps the state before the call to an outcome
      (a return value or a raised exception) and the state after the
      call.  A raised exception keeps the state reached so far, as in
      Python.
    - Python [int] is [Z] and Python [float] is the binary64 [float] of
      the kernel.  A price is a number of either kind: the interface
      enters floats, a file or a caller may give ints.  The arithmetic
      is Python's: exact on ints, rounded to nearest on floats, with the
      [OverflowError] of an int too large to become a float.
    - A Python [dict] is an association list in insertion order.
    - Products are held by value: the store owns its products, and no
      reference to a stored product is kept outside of it. *)

From Stdlib Require Import List String Ascii Bool ZArith NArith Lia.
From Stdlib Require Import Floats.
From Stdlib Require Import DecimalString Permutation.
Import ListNotations.

Local Open Scope string_scope.
Local Open Scope Z_scope.

(** ** The Python runtime the code relies on *)

Module Py.

(** The exceptions that the core can raise.  [Exception] is the generic
    class raised by [raise Exception(msg)]; the others are raised by the
    built-in operations the code calls. *)
Inductive exn : Type :=
| Exception (msg : string)
| KeyError (key : string)
| ValueError (msg : string)
| FileNotFoundError (filename : string)
| PermissionError (filename : string)
| AttributeError (attr : string)
| OverflowError (msg : string)
| Untyped (field : string).
(* [Untyped] is the one constructor that is not a Python exception.  It
   marks a record whose field holds a JSON value outside the field's
   type in the data model, from which the dynamically typed source would
   build an ill-typed object; the typed embedding stops there. *)

Inductive outcome (A : Type) : Type :=
| Return (a : A)
| Raise (e : exn).
Arguments Return {A} a.
Arguments Raise {A} e.

(** Computations over a mutable state [S]. *)
Definition M (S A : Type) : Type := S -> outcome A * S.

Definition ret {S A} (a : A) : M S A := fun s => (Return a, s).
Definition raise {S A} (e : exn) : M S A := fun s => (Raise e, s).
Definition bind {S A B} (m : M S A) (k : A -> M S B) : M S B :=
  fun s => match m s with
           | (Return a, s') => k a s'
           | (Raise e, s') => (Raise e, s')
           end.
Definition get {S} : M S S := fun s => (Return s, s).
Definition put {S} (s : S) : M S unit := fun _ => (Return tt, s).

(** *** Numbers: [int] and [float] *)
Inductive number : Type :=
| Int (z : Z)
| Float (f : float).

(** The conversion of an [int] to a [float] that the arithmetic makes
    when the other operand is a float: the nearest float, ties to even,
    and an [OverflowError] when that is beyond the largest float. *)
Definition float_of_int (n : Z) : outcome float :=
  let f := SF2Prim (binary_normalize prec emax n 0 false) in
  if PrimFloat.is_infinity f
  then Raise (OverflowError "int too large to convert to float")
  else Return f.

(** [x * y] and [x + y] on numbers: exact on two ints; with a float
    among the operands, the int is converted and the floats are
    multiplied or added. *)
Definition arith (on_int : Z -> Z -> Z) (on_float : float -> float -> float)
    (x y : number) : outcome number :=
  match x, y with
  | Int a, Int b => Return (Int (on_int a b))
  | Float f, Float g => Return (Float (on_float f g))
  | Int a, Float g =>
      match float_of_int a with
      | Return f => Return (Float (on_float f g))
      | Raise e => Raise e
      end
  | Float f, Int b =>
      match float_of_int b with
      | Return g => Return (Float (on_float f g))
      | Raise e => Raise e
      end
  end.

Definition number_mul : number -> number -> outcome number :=
  arith Z.mul PrimFloat.mul.

Definition number_add : number -> number -> outcome number :=
  arith Z.add PrimFloat.add.

(** [sum(items)]: from 0, each item is produced, which may raise, and
    added to the running total, from left to right.  This is the sum of
    the interpreters up to 3.11; from 3.12 on, the rounding errors of
    float items are compensated, so that a total of floats may differ
    from this one in its last digits. *)
Fixpoint sum_from (total : number) (items : list (outcome number))
  : outcome number :=
  match items with
  | [] => Return total
  | Raise e :: _ => Raise e
  | Return x :: items' =>
      match number_add total x with
      | Return total' => sum_from total' items'
      | Raise e => Raise e
      end
  end.

Definition sum (items : list (outcome number)) : outcome number :=
  sum_from (Int 0) items.

(** [for x in xs: body(x)] *)
Fixpoint for_each {S A} (xs : list A) (body : A -> M S unit) : M S unit :=
  match xs with
  | [] => ret tt
  | x :: xs' => bind (body x) (fun _ => for_each xs' body)
  end.

(** *** str.lower

    A string is the sequence of the bytes of its UTF-8 encoding.
    [lower] maps the letters [A]..[Z] to [a]..[z] and keeps every other
    byte.  Python also lowers letters outside ASCII, to characters
    outside ASCII again; the code compares lowered strings with the
    lowered names of its classes, which are ASCII, and there only the
    ASCII letters decide. *)
Definition is_upper (c : ascii) : bool :=
  ((65 <=? N_of_ascii c) && (N_of_ascii c <=? 90))%N.

Definition lower_char (c : ascii) : ascii :=
  if is_upper c then ascii_of_N (N_of_ascii c + 32) else c.

Fixpoint lower (s : string) : string :=
  match s with
  | EmptyString => EmptyString
  | String c s' => String (lower_char c) (lower s')
  end.

(** *** dict, keyed by strings, in insertion order *)
Definition dict (V : Type) : Type := list (string * V).

Section Dict.
Context {V : Type}.

(** [d.get(k)], the lookup behind [d[k]] and [k in d] *)
Fixpoint dict_get (k : string) (d : dict V) : option V :=
  match d with
  | [] => None
  | (k', v) :: d' => if String.eqb k k' then Some v else dict_get k d'
  end.

(** [k in d] *)
Definition dict_contains (k : string) (d : dict V) : bool :=
  match dict_get k d with Some _ => true | None => false end.

(** [d[k] = v]: an existing key keeps its position, a new key goes
    last. *)
Fixpoint dict_set (k : string) (v : V) (d : dict V) : dict V :=
  match d with
  | [] => [(k, v)]
  | (k', v') :: d' =>
      if String.eqb k k' then (k', v) :: d' else (k', v') :: dict_set k v d'
  end.

(** [del d[k]] for a key that is present *)
Fixpoint dict_del (k : string) (d : dict V) : dict V :=
  match d with
  | [] => []
  | (k', v') :: d' =>
      if String.eqb k k' then d' else (k', v') :: dict_del k d'
  end.

(** [d.update(e)] *)
Definition dict_update (e : dict V) (d : dict V) : dict V :=
  fold_left (fun acc kv => dict_set (fst kv) (snd kv) acc) e d.

Definition dict_keys (d : dict V) : list string := map fst d.
Definition dict_values (d : dict V) : list V := map snd d.
Definition dict_items (d : dict V) : list (string * V) := d.

(** The keys of a dict are pairwise distinct. *)
Definition dict_wf (d : dict V) : Prop := NoDup (dict_keys d).
End Dict.

End Py.

Import Py.

Declare Scope py_scope.
Delimit Scope py_scope with py.
Notation "x <- m ;; k" := (bind m (fun x => k))
  (at level 61, m at next level, right associativity) : py_scope.

(** ** class Product and its subclasses *)

(** The attributes set by [Product.__init__]. *)
Record Base : Type := mkBase {
  _product_id : string;
  _name : string;
  _price : number;
  _quantity_in_stock : Z
}.

(** An object of one of the three concrete classes: the attributes of
    the base class and those of the subclass. *)
Inductive Product : Type :=
| Electronics (b : Base) (brand : string) (warranty_years : Z)
| Grocery (b : Base) (expiry_date : string)
| Clothing (b : Base) (size : string) (material : string).

Definition base (p : Product) : Base :=
  match p with
  | Electronics b _ _ => b
  | Grocery b _ => b
  | Clothing b _ _ => b
  end.

Definition with_base (p : Product) (b : Base) : Product :=
  match p with
  | Electronics _ brand w => Electronics b brand w
  | Grocery _ e => Grocery b e
  | Clothing _ s m => Clothing b s m
  end.

Definition product_id (p : Product) : string := _product_id (base p).
Definition name (p : Product) : string := _name (base p).
Definition price (p : Product) : number := _price (base p).
Definition quantity_in_stock (p : Product) : Z := _quantity_in_stock (base p).

(** The object [p] after [p._quantity_in_stock = q]. *)
Definition with_quantity (p : Product) (q : Z) : Product :=
  let b := base p in
  with_base p (mkBase (_product_id b) (_name b) (_price b) q).

(** [self._quantity_in_stock = q] *)
Definition set_quantity_in_stock (q : Z) : M Product unit :=
  fun self => (Return tt, with_quantity self q).

(** [self.__class__.__name__] *)
Definition class_name (p : Product) : string :=
  match p with
  | Electronics _ _ _ => "Electronics"
  | Grocery _ _ => "Grocery"
  | Clothing _ _ _ => "Clothing"
  end.

Local Open Scope py_scope.

(** [Product.restock] *)
Definition restock (amount : Z) : M Product unit :=
  self <- get ;;
  set_quantity_in_stock (quantity_in_stock self + amount).

(** The exception of [Product.sell]: the spec's [InsufficientStock]. *)
Definition InsufficientStock : exn := Exception "Not enough stock to sell".

(** [Product.sell] *)
Definition sell (quantity : Z) : M Product unit :=
  self <- get ;;
  if quantity >? quantity_in_stock self then raise InsufficientStock
  else set_quantity_in_stock (quantity_in_stock self - quantity).

(** [Product.get_total_value] *)
Definition get_total_value (p : Product) : outcome number :=
  number_mul (price p) (Int (quantity_in_stock p)).

(** ** datetime

    A naive [datetime] object.  [strptime] is given for the one format
    the code uses, ["%Y-%m-%d"]: four digits, a dash, a month of one or
    two digits, a dash, a day of one or two digits (or a space and one
    digit); the date must exist in the calendar and the time of day of
    the result is midnight.  The digits are the ASCII ones: on a string
    of ASCII characters this is the [strptime] of Python, which reads
    the decimal digits of other scripts as well. *)
Record datetime : Type := mkDatetime {
  year : Z; month : Z; day : Z;
  hour : Z; minute : Z; second : Z; microsecond : Z
}.

Definition datetime_fields (d : datetime) : list Z :=
  [year d; month d; day d; hour d; minute d; second d; microsecond d].

Fixpoint lex_ltb (a b : list Z) : bool :=
  match a, b with
  | x :: a', y :: b' => (x <? y) || ((x =? y) && lex_ltb a' b')
  | _, _ => false
  end.

(** [a < b] on datetimes *)
Definition datetime_ltb (a b : datetime) : bool :=
  lex_ltb (datetime_fields a) (datetime_fields b).

Definition digit_value (c : ascii) : option Z :=
  let n := N_of_ascii c in
  if ((48 <=? n) && (n <=? 57))%N then Some (Z.of_N n - 48) else None.

Fixpoint split_dash (s : string) : option (string * string) :=
  match s with
  | EmptyString => None
  | String c s' =>
      if Ascii.eqb c "-" then Some (EmptyString, s')
      else match split_dash s' with
           | Some (a, b) => Some (String c a, b)
           | None => None
           end
  end.

Definition parse_year (s : string) : option (Z * string) :=
  match s with
  | String a (String b (String c (String d (String sep rest)))) =>
      match digit_value a, digit_value b, digit_value c, digit_value d with
      | Some a, Some b, Some c, Some d =>
          if Ascii.eqb sep "-"
          then Some (1000 * a + 100 * b + 10 * c + d, rest) else None
      | _, _, _, _ => None
      end
  | _ => None
  end.

(** One or two digits with a value from 1 to [bound]. *)
Definition parse_upto (bound : Z) (t : string) : option Z :=
  match t with
  | String a EmptyString =>
      match digit_value a with
      | Some v => if 1 <=? v then Some v else None
      | None => None
      end
  | String a (String b EmptyString) =>
      match digit_value a, digit_value b with
      | Some x, Some y =>
          let v := 10 * x + y in
          if (1 <=? v) && (v <=? bound) then Some v else None
      | _, _ => None
      end
  | _ => None
  end.

Definition parse_month (t : string) : option Z := parse_upto 12 t.

Definition parse_day (t : string) : option Z :=
  match t with
  | String sp (String a EmptyString) =>
      if Ascii.eqb sp " " then parse_upto 31 (String a EmptyString)
      else parse_upto 31 t
  | _ => parse_upto 31 t
  end.

Definition is_leap (y : Z) : bool :=
  (y mod 4 =? 0) && (negb (y mod 100 =? 0) || (y mod 400 =? 0)).

Definition days_in_month (y m : Z) : Z :=
  if m =? 2 then (if is_leap y then 29 else 28)
  else if (m =? 4) || (m =? 6) || (m =? 9) || (m =? 11) then 30
  else 31.

(** [datetime.strptime(s, "%Y-%m-%d")] *)
Definition strptime (s : string) : outcome datetime :=
  match parse_year s with
  | None => Raise (ValueError "time data does not match format")
  | Some (y, rest) =>
      match split_dash rest with
      | None => Raise (ValueError "time data does not match format")
      | Some (ms, ds) =>
          match parse_month ms, parse_day ds with
          | Some m, Some d =>
              if (1 <=? y) && (d <=? days_in_month y m)
              then Return (mkDatetime y m d 0 0 0 0)
              else Raise (ValueError "date out of range")
          | _, _ => Raise (ValueError "time data does not match format")
          end
      end
  end.

(** A computation that does not touch the state. *)
Definition lift {S A} (o : outcome A) : M S A := fun s => (o, s).

(** [isinstance(p, Grocery)] *)
Definition isinstance_Grocery (p : Product) : bool :=
  match p with Grocery _ _ => true | _ => false end.

(** [Grocery.is_expired]; [today] is the value of [datetime.today()],
    the current local date and time.  The other classes have no such
    method. *)
Definition is_expired (self : Product) (today : datetime) : outcome bool :=
  match self with
  | Grocery _ expiry_date =>
      match strptime expiry_date with
      | Return d => Return (datetime_ltb d today)
      | Raise e => Raise e
      end
  | _ => Raise (AttributeError "is_expired")
  end.

(** ** Records and documents: what [json.dump] writes, [json.load] reads

    The values of a record are JSON strings and numbers.  A file holds
    the document that [json.load] gives back for the text that
    [json.dump] wrote, or text that is not JSON. *)
Inductive json : Type :=
| JStr (s : string)
| JInt (z : Z)
| JFloat (f : float).

Definition record : Type := dict json.
Definition document : Type := list record.

Inductive file : Type :=
| Json (data : document)
| NotJson.

Record filesystem : Type := mkFs {
  files : dict file;
  unwritable : list string
}.

(** A number as [json.dump] writes it and [json.load] reads it. *)
Definition json_of_number (x : number) : json :=
  match x with Int z => JInt z | Float f => JFloat f end.

(** [Product.to_dict] of the base class *)
Definition Product_to_dict (p : Product) : record :=
  [("type", JStr (class_name p));
   ("product_id", JStr (product_id p));
   ("name", JStr (name p));
   ("price", json_of_number (price p));
   ("quantity_in_stock", JInt (quantity_in_stock p))].

(** [to_dict] as each subclass overrides it *)
Definition to_dict (p : Product) : record :=
  let data := Product_to_dict p in
  match p with
  | Electronics _ brand warranty_years =>
      dict_update [("brand", JStr brand);
                   ("warranty_years", JInt warranty_years)] data
  | Grocery _ expiry_date =>
      dict_update [("expiry_date", JStr expiry_date)] data
  | Clothing _ size material =>
      dict_update [("size", JStr size); ("material", JStr material)] data
  end.

(** [item[k]] *)
Definition getitem {V} (k : string) (d : dict V) : outcome V :=
  match dict_get k d with
  | Some v => Return v
  | None => Raise (KeyError k)
  end.

(** [item[k]] read at the type that the data model gives the field:
    the [KeyError] of a missing key is Python's; on a value of another
    type the source goes on with an object that the typed record cannot
    hold, and the reading stops with [Untyped]. *)
Definition field_str (k : string) (item : record) : outcome string :=
  match getitem k item with
  | Return (JStr s) => Return s
  | Return _ => Raise (Untyped k)
  | Raise e => Raise e
  end.

Definition field_int (k : string) (item : record) : outcome Z :=
  match getitem k item with
  | Return (JInt z) => Return z
  | Return _ => Raise (Untyped k)
  | Raise e => Raise e
  end.

Definition field_num (k : string) (item : record) : outcome number :=
  match getitem k item with
  | Return (JFloat f) => Return (Float f)
  | Return (JInt z) => Return (Int z)
  | Return (JStr _) => Raise (Untyped k)
  | Raise e => Raise e
  end.

(** [ptype == s] for a value read from a record *)
Definition json_is_str (v : json) (s : string) : bool :=
  match v with JStr s' => String.eqb s' s | _ => false end.

(** ** class Inventory

    The state of an [Inventory] object is its one attribute,
    [self._products]. *)
Definition Inventory : Type := dict Product.

(** [Inventory()] *)
Definition Inventory_init : Inventory := [].

(** The exception of [add_product]: the spec's [DuplicateId]. *)
Definition DuplicateId : exn := Exception "Duplicate product ID".

(** What indexing [self._products] with an absent id raises: the spec's
    [UnknownProduct]. *)
Definition UnknownProduct (product_id : string) : exn := KeyError product_id.

(** [Inventory.add_product] *)
Definition add_product (product : Product) : M Inventory unit :=
  self <- get ;;
  if dict_contains (product_id product) self then raise DuplicateId
  else put (dict_set (product_id product) product self).

(** [Inventory.remove_product] *)
Definition remove_product (pid : string) : M Inventory unit :=
  self <- get ;;
  if dict_contains pid self then put (dict_del pid self) else ret tt.

(** [Inventory.search_by_type] *)
Definition search_by_type (product_type : string) : M Inventory (list Product) :=
  self <- get ;;
  ret (filter (fun p => String.eqb (lower (class_name p)) (lower product_type))
              (dict_values self)).

(** [self._products[pid].method(...)]: the method runs on the object
    stored under [pid], which stays where it is in the dict. *)
Definition call_on {A} (pid : string) (method : M Product A) : M Inventory A :=
  fun self =>
    match getitem pid self with
    | Raise e => (Raise e, self)
    | Return p => let (r, p') := method p in (r, dict_set pid p' self)
    end.

(** [Inventory.sell_product] *)
Definition sell_product (pid : string) (quantity : Z) : M Inventory unit :=
  call_on pid (sell quantity).

(** [Inventory.restock_product] *)
Definition restock_product (pid : string) (quantity : Z) : M Inventory unit :=
  call_on pid (restock quantity).

(** [Inventory.total_inventory_value] *)
Definition total_inventory_value (self : Inventory) : outcome number :=
  sum (map get_total_value (dict_values self)).

(** [[pid for pid, p in items if isinstance(p, Grocery) and p.is_expired()]] *)
Fixpoint expired_ids (today : datetime) (items : list (string * Product))
  : outcome (list string) :=
  match items with
  | [] => Return []
  | (pid, p) :: items' =>
      match (if isinstance_Grocery p then is_expired p today
             else Return false) with
      | Raise e => Raise e
      | Return b =>
          match expired_ids today items' with
          | Raise e => Raise e
          | Return pids => Return (if b then pid :: pids else pids)
          end
      end
  end.

(** [del self._products[pid]] *)
Definition delitem (pid : string) : M Inventory unit :=
  self <- get ;;
  if dict_contains pid self then put (dict_del pid self)
  else raise (KeyError pid).

(** [Inventory.remove_expired_products]; every call of [is_expired]
    reads the clock, which is taken to stand at [today] throughout. *)
Definition remove_expired_products (today : datetime) : M Inventory unit :=
  self <- get ;;
  expired <- lift (expired_ids today (dict_items self)) ;;
  for_each expired delitem.

(** [open(filename, "w")] followed by [json.dump(data, f)] *)
Definition json_dump (data : document) (filename : string) : M filesystem unit :=
  fs <- get ;;
  if existsb (String.eqb filename) (unwritable fs)
  then raise (PermissionError filename)
  else put (mkFs (dict_set filename (Json data) (files fs)) (unwritable fs)).

(** [open(filename, "r")] followed by [json.load(f)] *)
Definition json_load (filename : string) (fs : filesystem) : outcome document :=
  match dict_get filename (files fs) with
  | None => Raise (FileNotFoundError filename)
  | Some NotJson => Raise (ValueError "JSONDecodeError")
  | Some (Json data) => Return data
  end.

(** [Inventory.save_to_file]: reads [self], writes the file. *)
Definition save_to_file (self : Inventory) (filename : string)
  : M filesystem unit :=
  let data := map to_dict (dict_values self) in
  json_dump data filename.

(** [self._products[p._product_id] = p] *)
Definition store (p : Product) : M Inventory unit :=
  self <- get ;; put (dict_set (product_id p) p self).

(** The arguments of [Product.__init__], read from a record from left to
    right. *)
Definition load_base (item : record) : outcome Base :=
  match field_str "product_id" item with
  | Raise e => Raise e
  | Return pid =>
  match field_str "name" item with
  | Raise e => Raise e
  | Return n =>
  match field_num "price" item with
  | Raise e => Raise e
  | Return pr =>
  match field_int "quantity_in_stock" item with
  | Raise e => Raise e
  | Return q => Return (mkBase pid n pr q)
  end end end end.

(** The body of the loop of [load_from_file]. *)
Definition load_item (item : record) : M Inventory unit :=
  ptype <- lift (getitem "type" item) ;;
  if json_is_str ptype "Electronics" then
    b <- lift (load_base item) ;;
    brand <- lift (field_str "brand" item) ;;
    warranty_years <- lift (field_int "warranty_years" item) ;;
    store (Electronics b brand warranty_years)
  else if json_is_str ptype "Grocery" then
    b <- lift (load_base item) ;;
    expiry_date <- lift (field_str "expiry_date" item) ;;
    store (Grocery b expiry_date)
  else if json_is_str ptype "Clothing" then
    b <- lift (load_base item) ;;
    size <- lift (field_str "size" item) ;;
    material <- lift (field_str "material" item) ;;
    store (Clothing b size material)
  else ret tt.

(** [Inventory.load_from_file]: reads the file, merges into [self]. *)
Definition load_from_file (filename : string) (fs : filesystem)
  : M Inventory unit :=
  data <- lift (json_load filename fs) ;;
  for_each data load_item.

(** ** The core operations as the presentation layer calls them *)
Inductive command : Type :=
| Add (product : Product)
| Remove (pid : string)
| Sell (pid : string) (quantity : Z)
| Restock (pid : string) (quantity : Z)
| RemoveExpired (today : datetime)
| Save (filename : string)
| Load (filename : string).

(** The session: the one [Inventory] object and the files around it. *)
Definition session : Type := (Inventory * filesystem)%type.

Definition on_inventory {A} (m : M Inventory A) : M session A :=
  fun s => let (r, inv') := m (fst s) in (r, (inv', snd s)).

Definition on_files {A} (m : Inventory -> M filesystem A) : M session A :=
  fun s => let (r, fs') := m (fst s) (snd s) in (r, (fst s, fs')).

Definition run (c : command) : M session unit :=
  match c with
  | Add product => on_inventory (add_product product)
  | Remove pid => on_inventory (remove_product pid)
  | Sell pid quantity => on_inventory (sell_product pid quantity)
  | Restock pid quantity => on_inventory (restock_product pid quantity)
  | RemoveExpired today => on_inventory (remove_expired_products today)
  | Save filename => on_files (fun self => save_to_file self filename)
  | Load filename => fun s => on_inventory (load_from_file filename (snd s)) s
  end.

(** ** The predicates of the specification *)

(** Every product has a stock that is not negative. *)
Definition stock_nonneg (inv : Inventory) : Prop :=
  Forall (fun p => 0 <= quantity_in_stock p) (dict_values inv).

(** Every product is stored under its own id. *)
Definition keyed_by_id (inv : Inventory) : Prop :=
  Forall (fun kv => fst kv = product_id (snd kv)) inv.

(** The shape of [self._products] in every state that the methods of
    [Inventory] build: distinct keys, each the id of its product. *)
Definition inventory_wf (inv : Inventory) : Prop :=
  dict_wf inv /\ keyed_by_id inv.

(** A record whose stock is an integer that is not negative. *)
Definition record_stock_nonneg (item : record) : Prop :=
  match dict_get "quantity_in_stock" item with
  | Some (JInt q) => 0 <= q
  | Some _ => False
  | None => True
  end.

Definition document_ok (data : document) : Prop :=
  Forall record_stock_nonneg data.

(** What the invariant on stock asks of the caller of an operation. *)
Definition command_ok (c : command) (fs : filesystem) : Prop :=
  match c with
  | Add product => 0 <= quantity_in_stock product
  | Restock _ quantity => 0 <= quantity
  | Load filename =>
      forall data, dict_get filename (files fs) = Some (Json data) ->
                   document_ok data
  | _ => True
  end.

(** The calendar date of a datetime, and the order of calendar dates. *)
Definition date_of (d : datetime) : list Z := [year d; month d; day d].

Definition date_ltb (a b : datetime) : bool :=
  lex_ltb (date_of a) (date_of b).

(** The time of day, in microseconds since midnight. *)
Definition time_of_day (d : datetime) : Z :=
  ((hour d * 60 + minute d) * 60 + second d) * 1000000 + microsecond d.

(** A datetime that [datetime.today()] can return. *)
Definition clock_reading (d : datetime) : Prop :=
  0 <= hour d < 24 /\ 0 <= minute d < 60 /\ 0 <= second d < 60 /\
  0 <= microsecond d < 1000000.

(** The expiry date of a Grocery is a calendar date in ISO 8601 form. *)
Definition has_valid_date (p : Product) : bool :=
  match p with
  | Grocery _ expiry_date =>
      match strptime expiry_date with Return _ => true | Raise _ => false end
  | _ => true
  end.

(** [p] is a Grocery for which [is_expired()] is true. *)
Definition expired (today : datetime) (p : Product) : bool :=
  isinstance_Grocery p &&
  match is_expired p today with Return b => b | Raise _ => false end.



(** A product whose price is an [int], and the exact sum of
    [price * quantity_in_stock] over products of that kind. *)
Definition int_priced (p : Product) : Prop := exists z, price p = Int z.

Fixpoint exact_sum (ps : list Product) : Z :=
  match ps with
  | [] => 0
  | p :: ps' =>
      match price p with
      | Int z => z * quantity_in_stock p
      | Float _ => 0
      end + exact_sum ps'
  end.

(** Equality of strings up to the case of their letters. *)
Definition letter_pair (u l : ascii) : Prop :=
  (65 <= N_of_ascii u <= 90)%N /\ N_of_ascii l = (N_of_ascii u + 32)%N.

Definition same_letter (a b : ascii) : Prop :=
  a = b \/ letter_pair a b \/ letter_pair b a.

Inductive eq_ignore_case : string -> string -> Prop :=
| eic_empty : eq_ignore_case EmptyString EmptyString
| eic_char a b s t :
    same_letter a b -> eq_ignore_case s t ->
    eq_ignore_case (String a s) (String b t).

(** ** The products and dates of the scenarios *)
Definition phone : Product :=
  Electronics (mkBase "E1" "Phone" (Int 500) 10) "Acme" 2.
Definition milk : Product :=
  Grocery (mkBase "G1" "Milk" (Int 2) 5) "2000-01-01".
Definition shirt : Product :=
  Clothing (mkBase "C1" "Shirt" (Float 12.5) 3) "M" "cotton".
Definition eggs : Product :=
  Grocery (mkBase "G2" "Eggs" (Int 3) 12) "2024-05-01".

(** The store after the three products were added to an empty one. *)
Definition shop : Inventory :=
  snd (for_each [phone; milk; shirt] add_product Inventory_init).

(** The morning of 1 May 2024, and the midnight that starts that day. *)
Definition may_day_morning : datetime := mkDatetime 2024 5 1 10 30 0 0.
Definition may_day_midnight : datetime := mkDatetime 2024 5 1 0 0 0 0.

(** A disk with no file on it, every path writable. *)
Definition empty_disk : filesystem := mkFs [] [].

(** Every document on the disk holds quantities that are not negative. *)
Definition disk_ok (fs : filesystem) : Prop :=
  forall filename data,
    dict_get filename (files fs) = Some (Json data) -> document_ok data.

Definition session_ok (s : session) : Prop :=
  stock_nonneg (fst s) /\ disk_ok (snd s).

(** What is asked of the caller alone. *)
Definition caller_ok (c : command) : Prop :=
  match c with
  | Add product => 0 <= quantity_in_stock product
  | Restock _ quantity => 0 <= quantity
  | _ => True
  end.

(** A sequence of operations; the session goes on after an exception. *)
Definition run_all (cs : list command) (s : session) : session :=
  fold_left (fun s c => snd (run c s)) cs s.

(** ** The rest of the two classes, and what the pages of the interface
    call *)



(** Strings of ASCII characters. *)
Fixpoint ascii_only (s : string) : bool :=
  match s with
  | EmptyString => true
  | String c s' => (N_of_ascii c <? 128)%N && ascii_only s'
  end.





(** The records that the loop of [load_from_file] passes over: their
    type is none of the three class names. *)
Definition skipped (item : record) : bool :=
  match dict_get "type" item with
  | Some ptype =>
      negb (json_is_str ptype "Electronics" || json_is_str ptype "Grocery"
            || json_is_str ptype "Clothing")
  | None => false
  end.

(** *** The interface: the start of a session and the Add page *)

(** The file that the interface loads and saves. *)
Definition inventory_json : string := "inventory.json".

(** The start of a session: a fresh [Inventory], and
    [load_from_file("inventory.json")] inside [try: ... except: pass]. *)
Definition session_start (fs : filesystem) : Inventory :=
  snd (load_from_file inventory_json fs Inventory_init).

(** The decimal digit [n], and a number below 100 on two digits. *)
Definition digit_char (n : Z) : ascii := ascii_of_N (48 + Z.to_N n).

Definition two_digits (n : Z) : string :=
  String (digit_char (n / 10)) (String (digit_char (n mod 10)) EmptyString).

(** [d.strftime("%Y-%m-%d")], for the years of four digits, 1000 to
    9999, which are those that the date input of the Add page gives. *)
Definition strftime (d : datetime) : string :=
  two_digits (year d / 100) ++ two_digits (year d mod 100) ++ "-" ++
  two_digits (month d) ++ "-" ++ two_digits (day d).

(** A day of the calendar in a year of four digits. *)
Definition calendar_date (y m d : Z) : Prop :=
  1000 <= y <= 9999 /\ 1 <= m <= 12 /\ 1 <= d <= days_in_month y m.

(** The Grocery that the Add page builds from its inputs. *)
Definition add_grocery_page
    (pid name : string) (price : number) (quantity : Z) (expiry : datetime)
  : M Inventory unit :=
  add_product (Grocery (mkBase pid name price quantity) (strftime expiry)).

(** A Grocery whose expiry date is not in the form year-month-day. *)
Definition stale : Product :=
  Grocery (mkBase "G3" "Bread" (Float 1.5) 4) "01/02/2020".

(** A record of a type that is none of the classes, a record without a
    type, and disks that hold them. *)
Definition toy_record : record :=
  [("type", JStr "Toy"); ("product_id", JStr "T1")].

Definition typeless_record : record := [("product_id", JStr "B1")].

Definition toy_disk : filesystem :=
  mkFs [(inventory_json, Json [toy_record; toy_record])] [].

Definition broken_disk : filesystem :=
  mkFs [(inventory_json,
         Json (map to_dict (dict_values shop)
               ++ [typeless_record; to_dict eggs])%list)]
       [].

(** The disk after the store of the scenarios was saved. *)
Definition shop_disk : filesystem :=
  snd (save_to_file shop inventory_json empty_disk).


Definition tenth : float := 0x1.999999999999ap-4%float.

Definition candy : Product :=
  Grocery (mkBase "G4" "Candy" (Float tenth) 3) "2030-01-01".

Definition kiosk : Inventory := [("E1", phone); ("G1", milk); ("G2", eggs)].

(** The store of the scenarios with the Grocery [stale] added. *)
Definition stale_shop : Inventory := (shop ++ [("G3", stale)])%list.

(** A Grocery whose expiry date, written in ASCII characters, is not a
    calendar date in the form year-month-day. *)
Definition malformed_date (p : Product) : bool :=
  match p with
  | Grocery _ expiry_date => ascii_only expiry_date && negb (has_valid_date p)
  | _ => false
  end.

(** * Properties *)

(** ** Facts about dicts *)
Section DictFacts.
Context {V : Type}.
Implicit Types (d : dict V) (k : string) (v : V).

Lemma dict_get_In k d v : dict_get k d = Some v -> In (k, v) d.
Proof.
  induction d as [|[k' v'] d IH]; simpl; [discriminate|].
  destruct (String.eqb_spec k k') as [->|_].
  - intros [= ->]. now left.
  - intros H. right. now apply IH.
Qed.

Lemma dict_get_None k d : dict_get k d = None <-> ~ In k (dict_keys d).
Proof.
  induction d as [|[k' v'] d IH]; simpl.
  - tauto.
  - destruct (String.eqb_spec k k') as [->|Hne].
    + split; [discriminate|]. intros H. exfalso. apply H. now left.
    + rewrite IH. split.
      * intros H [E|E]; [now apply Hne|now apply H].
      * intros H E. apply H. now right.
Qed.

Lemma dict_contains_false k d :
  dict_contains k d = false <-> ~ In k (dict_keys d).
Proof.
  unfold dict_contains. rewrite <- dict_get_None.
  destruct (dict_get k d); split; congruence.
Qed.

Lemma dict_contains_true k d :
  dict_contains k d = true <-> In k (dict_keys d).
Proof.
  destruct (dict_contains k d) eqn:E.
  - split; [intros _|reflexivity].
    destruct (in_dec string_dec k (dict_keys d)) as [H|H]; [exact H|].
    apply dict_contains_false in H. congruence.
  - apply dict_contains_false in E. split; [discriminate|tauto].
Qed.

Lemma In_dict_get k v d : dict_wf d -> In (k, v) d -> dict_get k d = Some v.
Proof.
  unfold dict_wf. induction d as [|[k' v'] d IH]; simpl; [tauto|].
  intros Hnd [E|Hin].
  - injection E as -> ->. now rewrite String.eqb_refl.
  - inversion Hnd as [|? ? Hnotin Hnd']; subst.
    destruct (String.eqb_spec k k') as [->|_].
    + exfalso. apply Hnotin. change k' with (fst (k', v)). now apply in_map.
    + now apply IH.
Qed.

Lemma dict_set_absent k v d :
  ~ In k (dict_keys d) -> dict_set k v d = (d ++ [(k, v)])%list.
Proof.
  induction d as [|[k' v'] d IH]; simpl; [reflexivity|].
  intros H. destruct (String.eqb_spec k k') as [->|_].
  - exfalso. apply H. now left.
  - f_equal. apply IH. intros E. apply H. now right.
Qed.

Lemma dict_get_set_same k v d : dict_get k (dict_set k v d) = Some v.
Proof.
  induction d as [|[k' v'] d IH]; simpl.
  - now rewrite String.eqb_refl.
  - destruct (String.eqb_spec k k') as [->|Hne]; simpl.
    + now rewrite String.eqb_refl.
    + destruct (String.eqb_spec k k'); [contradiction|exact IH].
Qed.

Lemma dict_get_set_other k k' v d :
  k' <> k -> dict_get k' (dict_set k v d) = dict_get k' d.
Proof.
  intros Hne. induction d as [|[k0 v0] d IH]; simpl.
  - destruct (String.eqb_spec k' k); [contradiction|reflexivity].
  - destruct (String.eqb_spec k k0) as [->|Hk]; simpl.
    + destruct (String.eqb_spec k' k0); [contradiction|reflexivity].
    + destruct (String.eqb_spec k' k0); [reflexivity|exact IH].
Qed.

Lemma dict_keys_set_present k v d :
  In k (dict_keys d) -> dict_keys (dict_set k v d) = dict_keys d.
Proof.
  induction d as [|[k' v'] d IH]; simpl; [tauto|].
  intros H. destruct (String.eqb_spec k k') as [->|Hne]; simpl.
  - reflexivity.
  - f_equal. apply IH. destruct H as [E|H]; [congruence|exact H].
Qed.

Lemma dict_set_values (P : V -> Prop) k v d :
  P v -> Forall P (dict_values d) -> Forall P (dict_values (dict_set k v d)).
Proof.
  intros Hv. induction d as [|[k' v'] d IH]; simpl; intros H.
  - now constructor.
  - inversion H; subst.
    destruct (String.eqb k k'); simpl; constructor; auto.
Qed.

Lemma dict_del_filter k d :
  dict_wf d ->
  dict_del k d = filter (fun kv => negb (String.eqb k (fst kv))) d.
Proof.
  unfold dict_wf. induction d as [|[k' v'] d IH]; simpl; [reflexivity|].
  intros Hnd. inversion Hnd as [|? ? Hnotin Hnd']; subst.
  destruct (String.eqb_spec k k') as [->|Hne]; simpl.
  - symmetry. apply forallb_filter_id. apply forallb_forall.
    intros [k0 v0] Hin. simpl.
    destruct (String.eqb_spec k' k0) as [->|_]; [|reflexivity].
    exfalso. apply Hnotin. change k0 with (fst (k0, v0)). now apply in_map.
  - f_equal. now apply IH.
Qed.

Lemma dict_del_values (P : V -> Prop) k d :
  Forall P (dict_values d) -> Forall P (dict_values (dict_del k d)).
Proof.
  induction d as [|[k' v'] d IH]; simpl; intros H; [constructor|].
  inversion H; subst.
  destruct (String.eqb k k'); simpl; [assumption|constructor; auto].
Qed.

Lemma dict_keys_filter_NoDup (f : string * V -> bool) d :
  dict_wf d -> dict_wf (filter f d).
Proof.
  unfold dict_wf. induction d as [|[k v] d IH]; simpl; intros H;
    [constructor|].
  inversion H as [|? ? Hnotin Hnd]; subst.
  destruct (f (k, v)); simpl; [|now apply IH].
  constructor; [|now apply IH].
  intros Hin. apply Hnotin. unfold dict_keys in *.
  apply in_map_iff in Hin as [kv [E Hin]]. apply filter_In in Hin as [Hin _].
  apply in_map_iff. now exists kv.
Qed.
End DictFacts.

(** ** Product.sell and Product.restock *)

Lemma quantity_with_quantity p q : quantity_in_stock (with_quantity p q) = q.
Proof. now destruct p. Qed.

Lemma product_id_with_quantity p q :
  product_id (with_quantity p q) = product_id p.
Proof. now destruct p. Qed.

Lemma price_with_quantity p q : price (with_quantity p q) = price p.
Proof. now destruct p. Qed.

Lemma class_name_with_quantity p q :
  class_name (with_quantity p q) = class_name p.
Proof. now destruct p. Qed.

Lemma sell_rejected p q :
  quantity_in_stock p < q -> sell q p = (Raise InsufficientStock, p).
Proof.
  intros H. unfold sell, bind, get, raise.
  destruct (Z.gtb_spec q (quantity_in_stock p)); [reflexivity|lia].
Qed.

Lemma sell_accepted p q :
  q <= quantity_in_stock p ->
  sell q p = (Return tt, with_quantity p (quantity_in_stock p - q)).
Proof.
  intros H. unfold sell, bind, get, set_quantity_in_stock.
  destruct (Z.gtb_spec q (quantity_in_stock p)); [lia|reflexivity].
Qed.

Lemma restock_spec p q :
  restock q p = (Return tt, with_quantity p (quantity_in_stock p + q)).
Proof. reflexivity. Qed.

(** C1.  [Product.sell(q)] raises the exception of insufficient stock
    exactly when [q] exceeds the stock, and the product is then left as
    it was; otherwise it returns and the stock has gone down by [q], all
    other attributes being kept.  Selling one more than the stock is
    always refused, with the stock unchanged. *)
Theorem sell_insufficient_stock (p : Product) (q : Z) :
  (fst (sell q p) = Raise InsufficientStock <-> q > quantity_in_stock p) /\
  (q > quantity_in_stock p -> sell q p = (Raise InsufficientStock, p)) /\
  (q <= quantity_in_stock p ->
     sell q p = (Return tt, with_quantity p (quantity_in_stock p - q)) /\
     quantity_in_stock (snd (sell q p)) = quantity_in_stock p - q) /\
  sell (quantity_in_stock p + 1) p = (Raise InsufficientStock, p).
Proof.
  repeat split.
  - intros H. destruct (Z_le_gt_dec q (quantity_in_stock p)) as [Hle|Hgt];
      [|exact Hgt].
    rewrite (sell_accepted _ _ Hle) in H. discriminate.
  - intros H. rewrite sell_rejected by lia. reflexivity.
  - intros H. apply sell_rejected. lia.
  - now apply sell_accepted.
  - rewrite sell_accepted by assumption. apply quantity_with_quantity.
  - apply sell_rejected. lia.
Qed.

Lemma sell_insufficient_stock_witness :
  sell 11 phone = (Raise InsufficientStock, phone) /\
  quantity_in_stock (snd (sell 3 phone)) = 7.
Proof.
  destruct (sell_insufficient_stock phone 11) as (_ & Hfail & _ & _).
  destruct (sell_insufficient_stock phone 3) as (_ & _ & Hok & _).
  split.
  - apply Hfail. reflexivity.
  - assert (H : 3 <= quantity_in_stock phone) by (vm_compute; discriminate).
    destruct (Hok H) as [_ Hq]. exact Hq.
Defined.

(** C10.  The only test of [Product.sell] is [q > stock]: every [q] that
    does not exceed the stock is accepted, a negative one included, and
    the stock becomes [stock - q]; for a negative [q] that is the stock
    raised by the absolute value of [q]. *)
Theorem sell_negative_quantity (p : Product) (q : Z) :
  q <= quantity_in_stock p ->
  sell q p = (Return tt, with_quantity p (quantity_in_stock p - q)) /\
  quantity_in_stock (snd (sell q p)) = quantity_in_stock p - q /\
  (q < 0 ->
   quantity_in_stock (snd (sell q p)) = quantity_in_stock p + Z.abs q).
Proof.
  intros H. rewrite (sell_accepted _ _ H). simpl.
  rewrite quantity_with_quantity. repeat split. lia.
Qed.

Lemma sell_negative_quantity_witness :
  quantity_in_stock (snd (sell (-4) phone)) = 14.
Proof.
  assert (H : -4 <= quantity_in_stock phone) by (vm_compute; discriminate).
  destruct (sell_negative_quantity phone (-4) H) as (_ & Hq & _).
  exact Hq.
Defined.

(** ** Inventory.add_product *)

Lemma add_product_present p inv :
  dict_contains (product_id p) inv = true ->
  add_product p inv = (Raise DuplicateId, inv).
Proof. intros H. unfold add_product, bind, get. now rewrite H. Qed.

Lemma add_product_absent p inv :
  dict_contains (product_id p) inv = false ->
  add_product p inv = (Return tt, (inv ++ [(product_id p, p)])%list).
Proof.
  intros H. unfold add_product, bind, get, put. rewrite H.
  apply dict_contains_false in H. now rewrite dict_set_absent.
Qed.

(** C2.  [add_product(p)] raises the exception of a duplicate id when
    the id of [p] is a key of the store, and the store is then exactly
    what it was; when the id is absent, [p] is inserted under its id
    (as the last entry) and no other key changes. *)
Theorem add_product_duplicate_id (p : Product) (inv : Inventory) :
  (dict_contains (product_id p) inv = true ->
     add_product p inv = (Raise DuplicateId, inv)) /\
  (dict_contains (product_id p) inv = false ->
     add_product p inv = (Return tt, (inv ++ [(product_id p, p)])%list) /\
     dict_get (product_id p) (snd (add_product p inv)) = Some p /\
     forall k, k <> product_id p ->
               dict_get k (snd (add_product p inv)) = dict_get k inv).
Proof.
  split; [apply add_product_present|].
  intros H. pose proof (add_product_absent _ _ H) as E.
  split; [exact E|].
  assert (E' : snd (add_product p inv) = dict_set (product_id p) p inv).
  { unfold add_product, bind, get, put. now rewrite H. }
  rewrite E'. split.
  - apply dict_get_set_same.
  - intros k Hk. now apply dict_get_set_other.
Qed.

Lemma add_product_duplicate_id_witness :
  add_product milk shop = (Raise DuplicateId, shop) /\
  dict_get "G2" (snd (add_product eggs shop)) = Some eggs.
Proof.
  destruct (add_product_duplicate_id milk shop) as [Hdup _].
  destruct (add_product_duplicate_id eggs shop) as [_ Hnew].
  split.
  - apply Hdup. reflexivity.
  - assert (H : dict_contains (product_id eggs) shop = false) by reflexivity.
    destruct (Hnew H) as (_ & Hget & _). exact Hget.
Defined.

(** ** Inventory.sell_product and Inventory.restock_product *)

Lemma dict_set_same {V} k (v : V) d : dict_get k d = Some v -> dict_set k v d = d.
Proof.
  induction d as [|[k' v'] d IH]; simpl; [discriminate|].
  destruct (String.eqb_spec k k') as [->|_].
  - now intros [= ->].
  - intros H. f_equal. now apply IH.
Qed.

Lemma call_on_absent {A} pid (method : M Product A) inv :
  dict_contains pid inv = false ->
  call_on pid method inv = (Raise (KeyError pid), inv).
Proof.
  unfold dict_contains, call_on, getitem.
  destruct (dict_get pid inv); [discriminate|reflexivity].
Qed.

Lemma call_on_present {A} pid (method : M Product A) inv p :
  dict_get pid inv = Some p ->
  call_on pid method inv =
  (fst (method p), dict_set pid (snd (method p)) inv).
Proof.
  intros H. unfold call_on, getitem. rewrite H. now destruct (method p).
Qed.

(** C3.  With an id that is not a key of the store, [sell_product] and
    [restock_product] raise the exception of an unknown product (the
    [KeyError] of the lookup) and the store is exactly what it was.
    With an id that is a key they run [sell], respectively [restock], on
    the product stored under it; the refusal of [sell] for insufficient
    stock comes out as it is, again with the store unchanged. *)
Theorem unknown_product_rejected (inv : Inventory) (pid : string) (q : Z) :
  (dict_contains pid inv = false ->
     sell_product pid q inv = (Raise (UnknownProduct pid), inv) /\
     restock_product pid q inv = (Raise (UnknownProduct pid), inv)) /\
  (forall p, dict_get pid inv = Some p ->
     sell_product pid q inv =
       (fst (sell q p), dict_set pid (snd (sell q p)) inv) /\
     restock_product pid q inv =
       (Return tt, dict_set pid (with_quantity p (quantity_in_stock p + q)) inv) /\
     (q > quantity_in_stock p ->
        sell_product pid q inv = (Raise InsufficientStock, inv))).
Proof.
  split.
  - intros H. split; now apply call_on_absent.
  - intros p Hp. repeat split.
    + now apply call_on_present.
    + unfold restock_product. rewrite (call_on_present _ _ _ _ Hp).
      now rewrite restock_spec.
    + intros Hq. unfold sell_product. rewrite (call_on_present _ _ _ _ Hp).
      rewrite sell_rejected by lia. simpl. now rewrite dict_set_same.
Qed.

Lemma unknown_product_rejected_witness :
  sell_product "X9" 1 shop = (Raise (UnknownProduct "X9"), shop) /\
  restock_product "X9" 1 shop = (Raise (UnknownProduct "X9"), shop) /\
  sell_product "E1" 11 shop = (Raise InsufficientStock, shop).
Proof.
  destruct (unknown_product_rejected shop "X9" 1) as [Habsent _].
  destruct (unknown_product_rejected shop "E1" 11) as [_ Hpresent].
  assert (H : dict_contains "X9" shop = false) by reflexivity.
  destruct (Habsent H) as [Hs Hr].
  assert (Hp : dict_get "E1" shop = Some phone) by reflexivity.
  destruct (Hpresent phone Hp) as (_ & _ & Hq).
  split; [exact Hs|]. split; [exact Hr|].
  apply Hq. reflexivity.
Defined.

(** ** Inventory.total_inventory_value *)



Lemma sum_from_exact (ps : list Product) (a : Z) :
  Forall int_priced ps ->
  sum_from (Int a) (map get_total_value ps) = Return (Int (a + exact_sum ps)).
Proof.
  revert a. induction ps as [|p ps IH]; intros a H; simpl.
  - now rewrite Z.add_0_r.
  - inversion H as [|? ? [z Hz] Hps]; subst.
    unfold get_total_value at 1. rewrite Hz. simpl.
    rewrite (IH _ Hps). now rewrite Z.add_assoc.
Qed.


Lemma total_exact (inv : Inventory) :
  Forall int_priced (dict_values inv) ->
  total_inventory_value inv = Return (Int (exact_sum (dict_values inv))).
Proof.
  intros H. unfold total_inventory_value, sum. now rewrite sum_from_exact.
Qed.


Lemma kiosk_int_priced : Forall int_priced (dict_values kiosk).
Proof. repeat constructor; eexists; reflexivity. Qed.



(** The scenario of the spec: ten phones at 500, three sold, are worth
    3500. *)
Example total_after_sale :
  total_inventory_value (snd (sell_product "E1" 3 [("E1", phone)]))
  = Return (Int 3500).
Proof. reflexivity. Qed.

(** With a float price the value is rounded: three at one tenth are
    worth 0.30000000000000004. *)
Example total_of_tenths :
  total_inventory_value [("G4", candy)]
  = Return (Float 0x1.3333333333334p-2).
Proof. reflexivity. Qed.

(** ** str.lower and equality up to case *)

Lemma N_of_ascii_eq a b : a = b <-> N_of_ascii a = N_of_ascii b.
Proof.
  split; [now intros ->|]. intros H.
  rewrite <- (ascii_N_embedding a), <- (ascii_N_embedding b). now rewrite H.
Qed.

Lemma ascii_of_N_eq n b :
  (n < 256)%N -> ascii_of_N n = b <-> n = N_of_ascii b.
Proof.
  intros Hn. split.
  - intros <-. now rewrite N_ascii_embedding.
  - intros ->. apply ascii_N_embedding.
Qed.

Lemma lower_char_eq a b : lower_char a = lower_char b <-> same_letter a b.
Proof.
  unfold lower_char, is_upper, same_letter, letter_pair.
  pose proof (N_ascii_bounded a) as Ba. pose proof (N_ascii_bounded b) as Bb.
  destruct (N.leb_spec 65 (N_of_ascii a)), (N.leb_spec (N_of_ascii a) 90),
    (N.leb_spec 65 (N_of_ascii b)), (N.leb_spec (N_of_ascii b) 90); simpl;
    rewrite ?ascii_of_N_eq by lia;
    rewrite ?(N_of_ascii_eq a b);
    try rewrite (N_of_ascii_eq a (ascii_of_N _));
    rewrite ?N_ascii_embedding by lia; lia.
Qed.

Lemma lower_eq s t : lower s = lower t <-> eq_ignore_case s t.
Proof.
  revert t. induction s as [|a s IH]; intros [|b t]; simpl.
  - split; [constructor|reflexivity].
  - split; [discriminate|inversion 1].
  - split; [discriminate|inversion 1].
  - split.
    + intros [= Hc Hs]. constructor; [now apply lower_char_eq|now apply IH].
    + inversion 1; subst. f_equal; [now apply lower_char_eq|now apply IH].
Qed.

Lemma lower_class_name_inj p p' :
  lower (class_name p) = lower (class_name p') -> class_name p = class_name p'.
Proof. destruct p, p'; simpl; intros H; try reflexivity; discriminate H. Qed.

(** ** Inventory.search_by_type *)

(** C9.  [search_by_type(s)] returns exactly the products held whose
    class name equals [s] up to the case of the letters, whatever the
    casing of [s]: two inputs that differ in case only give the same
    answer, all products returned are of one class, and the store is
    left as it was. *)
Theorem search_by_type_ignores_case (s : string) (inv : Inventory) :
  exists found,
    search_by_type s inv = (Return found, inv) /\
    (forall p, In p found <->
               In p (dict_values inv) /\ eq_ignore_case (class_name p) s) /\
    (forall p p', In p found -> In p' found -> class_name p = class_name p') /\
    (forall s', eq_ignore_case s s' ->
                search_by_type s' inv = search_by_type s inv).
Proof.
  eexists. split; [reflexivity|]. split; [|split].
  - intros p. rewrite filter_In, String.eqb_eq, lower_eq. reflexivity.
  - intros p p'. rewrite !filter_In, !String.eqb_eq. intros [_ Hp] [_ Hp'].
    apply lower_class_name_inj. congruence.
  - intros s' Hs. apply lower_eq in Hs.
    unfold search_by_type, bind, get, ret. now rewrite Hs.
Qed.

(** The scenario of the spec: searching for ["grocery"], in any casing,
    finds the groceries only. *)
Example search_grocery_any_case :
  fst (search_by_type "grocery" shop) = Return [milk] /\
  fst (search_by_type "GROCERY" shop) = Return [milk] /\
  fst (search_by_type "gRoCeRy" shop) = Return [milk].
Proof. repeat split. Qed.

(** ** Grocery.is_expired *)

Lemma strptime_midnight s d :
  strptime s = Return d ->
  hour d = 0 /\ minute d = 0 /\ second d = 0 /\ microsecond d = 0.
Proof.
  unfold strptime.
  destruct (parse_year s) as [[y rest]|]; [|discriminate].
  destruct (split_dash rest) as [[ms ds]|]; [|discriminate].
  destruct (parse_month ms), (parse_day ds); try discriminate.
  destruct (_ && _); [|discriminate].
  intros [= <-]. simpl. auto.
Qed.

(** What the comparison of [is_expired] computes: the expiry date lies
    before the date of [today], or it is the date of [today] and the
    clock is past midnight. *)
Lemma is_expired_true_iff b expiry_date d today :
  strptime expiry_date = Return d -> clock_reading today ->
  is_expired (Grocery b expiry_date) today = Return true <->
  date_ltb d today = true \/
  (date_of d = date_of today /\ 0 < time_of_day today).
Proof.
  intros Hd (Hh & Hm & Hs & Hu). simpl. rewrite Hd.
  destruct (strptime_midnight _ _ Hd) as (H1 & H2 & H3 & H4).
  unfold datetime_ltb, date_ltb, datetime_fields, date_of, time_of_day, lex_ltb.
  rewrite H1, H2, H3, H4.
  split.
  - intros [= H]. revert H.
    rewrite !orb_true_iff, !andb_true_iff, !orb_true_iff, !andb_true_iff,
      !orb_true_iff, !andb_true_iff, !orb_true_iff, !andb_true_iff,
      ?orb_true_iff, ?andb_true_iff, ?Z.ltb_lt, ?Z.eqb_eq.
    intros H.
    destruct (Z.eq_dec (year d) (year today)) as [Ey|Ny];
      [destruct (Z.eq_dec (month d) (month today)) as [Em|Nm];
       [destruct (Z.eq_dec (day d) (day today)) as [Ed|Nd]|]|].
    + right. split; [congruence|lia].
    + left. lia.
    + left. lia.
    + left. lia.
  - intros H. f_equal.
    rewrite !orb_true_iff, !andb_true_iff, !orb_true_iff, !andb_true_iff,
      !orb_true_iff, !andb_true_iff, !orb_true_iff, !andb_true_iff,
      ?orb_true_iff, ?andb_true_iff, ?Z.ltb_lt, ?Z.eqb_eq.
    destruct H as [H|[E H]].
    + revert H.
      rewrite !orb_true_iff, !andb_true_iff, !orb_true_iff, !andb_true_iff,
        ?orb_true_iff, ?andb_true_iff, ?Z.ltb_lt, ?Z.eqb_eq. lia.
    + injection E as Ey Em Ed. lia.
Qed.

(** C5.  On the expiry day itself [is_expired()] answers true as soon as
    the clock is past midnight, although the expiry date is not before
    the date of [today]: [strptime] gives the midnight that starts the
    expiry day, and [datetime.today()] is the current date and time. *)
Theorem is_expired_on_expiry_day
    (b : Base) (expiry_date : string) (d today : datetime) :
  strptime expiry_date = Return d ->
  clock_reading today ->
  date_of today = date_of d ->
  0 < time_of_day today ->
  is_expired (Grocery b expiry_date) today = Return true /\
  date_ltb d today = false.
Proof.
  intros Hd Hc E Ht. split.
  - apply (is_expired_true_iff _ _ _ _ Hd Hc). right. split; [congruence|exact Ht].
  - unfold date_ltb. rewrite E. unfold date_of, lex_ltb.
    rewrite !Z.ltb_irrefl, !Z.eqb_refl. reflexivity.
Qed.

Lemma is_expired_on_expiry_day_witness :
  is_expired eggs may_day_morning = Return true /\
  date_ltb may_day_midnight may_day_morning = false.
Proof.
  apply (is_expired_on_expiry_day
           (mkBase "G2" "Eggs" (Int 3) 12) "2024-05-01"
           may_day_midnight may_day_morning).
  - reflexivity.
  - unfold clock_reading. simpl. lia.
  - reflexivity.
  - reflexivity.
Defined.

(** At the first instant of the expiry day the product is not expired
    yet. *)
Example is_expired_at_midnight :
  is_expired eggs may_day_midnight = Return false.
Proof. reflexivity. Qed.

(** ** Loops over the store *)

Lemma for_each_invariant {S A} (I : S -> Prop) (body : A -> M S unit) xs :
  (forall x s, In x xs -> I s -> I (snd (body x s))) ->
  forall s, I s -> I (snd (for_each xs body s)).
Proof.
  induction xs as [|x xs IH]; simpl; intros Hbody s Hs; [exact Hs|].
  unfold bind. pose proof (Hbody x s (or_introl eq_refl) Hs) as Hx.
  destruct (body x s) as [[[]|e] s']; simpl in *; [|exact Hx].
  apply IH; [|exact Hx]. intros y t Hy. apply Hbody. now right.
Qed.

Lemma filter_filter {A} (f g : A -> bool) (l : list A) :
  filter g (filter f l) = filter (fun x => f x && g x) l.
Proof.
  induction l as [|x l IH]; simpl; [reflexivity|].
  destruct (f x); simpl; [destruct (g x)|]; now rewrite IH.
Qed.

Lemma dict_wf_unique {V} (d : dict V) kv kv' :
  dict_wf d -> In kv d -> In kv' d -> fst kv = fst kv' -> kv = kv'.
Proof.
  intros Hwf H H' E. destruct kv as [k v], kv' as [k' v']. simpl in E. subst k'.
  apply (In_dict_get _ _ _ Hwf) in H. apply (In_dict_get _ _ _ Hwf) in H'.
  congruence.
Qed.

Lemma dict_get_filter {V} (f : string * V -> bool) k (d : dict V) :
  dict_wf d ->
  dict_get k (filter f d) =
  match dict_get k d with
  | Some v => if f (k, v) then Some v else None
  | None => None
  end.
Proof.
  unfold dict_wf. induction d as [|[k' v'] d IH]; simpl; [reflexivity|].
  intros Hnd. inversion Hnd as [|? ? Hnotin Hnd']; subst.
  destruct (String.eqb_spec k k') as [->|Hne].
  - destruct (f (k', v')) eqn:Ef; simpl.
    + now rewrite String.eqb_refl.
    + apply dict_get_None. intros Hin. apply Hnotin.
      unfold dict_keys in *. apply in_map_iff in Hin as [kv [E Hin]].
      apply filter_In in Hin as [Hin _]. apply in_map_iff. now exists kv.
  - destruct (f (k', v')); simpl; [|now apply IH].
    destruct (String.eqb_spec k k'); [contradiction|now apply IH].
Qed.

Lemma delitem_present pid inv :
  dict_wf inv -> In pid (dict_keys inv) ->
  delitem pid inv =
  (Return tt, filter (fun kv => negb (String.eqb pid (fst kv))) inv).
Proof.
  intros Hwf Hin. unfold delitem, bind, get, put.
  apply dict_contains_true in Hin. rewrite Hin. now rewrite dict_del_filter.
Qed.

Lemma for_each_delitem pids inv :
  dict_wf inv -> NoDup pids -> incl pids (dict_keys inv) ->
  for_each pids delitem inv =
  (Return tt, filter (fun kv => negb (existsb (String.eqb (fst kv)) pids)) inv).
Proof.
  revert inv. induction pids as [|pid pids IH]; intros inv Hwf Hnd Hincl; simpl.
  - unfold ret. f_equal. symmetry. apply forallb_filter_id.
    now apply forallb_forall.
  - inversion Hnd as [|? ? Hnotin Hnd']; subst.
    unfold bind. rewrite delitem_present;
      [|exact Hwf|apply Hincl; now left].
    rewrite IH.
    + f_equal. rewrite filter_filter. apply filter_ext.
      intros [k v]. simpl. rewrite (String.eqb_sym k pid).
      now rewrite negb_orb.
    + now apply dict_keys_filter_NoDup.
    + exact Hnd'.
    + intros k Hk. assert (Hk' : In k (dict_keys inv))
        by (apply Hincl; now right).
      unfold dict_keys in *. apply in_map_iff in Hk' as [kv [E Hkv]].
      apply in_map_iff. exists kv. split; [exact E|].
      apply filter_In. split; [exact Hkv|].
      rewrite E. destruct (String.eqb_spec pid k) as [->|_];
        [contradiction|reflexivity].
Qed.

(** ** Inventory.remove_expired_products *)

(** A Grocery whose expiry date is not a calendar date makes the method
    raise before anything is removed. *)
Lemma remove_expired_products_raises today inv e :
  expired_ids today inv = Raise e ->
  remove_expired_products today inv = (Raise e, inv).
Proof.
  intros H. unfold remove_expired_products, bind, get, lift, dict_items.
  now rewrite H.
Qed.

Lemma expired_ids_spec today (inv : Inventory) :
  Forall (fun p => has_valid_date p = true) (dict_values inv) ->
  expired_ids today inv =
  Return (dict_keys (filter (fun kv => expired today (snd kv)) inv)).
Proof.
  induction inv as [|[k p] inv IH]; simpl; intros H; [reflexivity|].
  inversion H as [|? ? Hp Hrest]; subst. rewrite (IH Hrest).
  unfold expired. destruct p as [b br w|b e|b sz m]; simpl in *;
    try reflexivity.
  destruct (strptime e) as [d|]; [|discriminate].
  now destruct (datetime_ltb d today).
Qed.

Lemma remove_expired_products_spec today inv :
  dict_wf inv ->
  Forall (fun p => has_valid_date p = true) (dict_values inv) ->
  remove_expired_products today inv =
  (Return tt, filter (fun kv => negb (expired today (snd kv))) inv).
Proof.
  intros Hwf Hvalid. unfold remove_expired_products, bind, get, lift, dict_items.
  rewrite (expired_ids_spec _ _ Hvalid).
  rewrite for_each_delitem.
  - f_equal. apply filter_ext_in. intros kv Hkv. f_equal.
    destruct (expired today (snd kv)) eqn:E.
    + apply existsb_exists. exists (fst kv). split; [|apply String.eqb_refl].
      unfold dict_keys. apply in_map. apply filter_In. now split.
    + destruct (existsb _ _) eqn:Ex; [|reflexivity].
      apply existsb_exists in Ex as [k [Hk Ek]]. apply String.eqb_eq in Ek.
      unfold dict_keys in Hk. apply in_map_iff in Hk as [kv' [E' Hkv']].
      apply filter_In in Hkv' as [Hin' Hexp'].
      assert (kv = kv') by (apply (dict_wf_unique inv); congruence).
      subst kv'. congruence.
  - exact Hwf.
  - apply (dict_keys_filter_NoDup _ _ Hwf).
  - intros k Hk. unfold dict_keys in *. apply in_map_iff in Hk as [kv [E Hkv]].
    apply filter_In in Hkv as [Hkv _]. apply in_map_iff. now exists kv.
Qed.

(** C6.  With the clock fixed at [today], [remove_expired_products()]
    returns and keeps, in their order, exactly the entries that are not
    a Grocery for which [is_expired()] is true: such a Grocery is gone,
    a Grocery for which [is_expired()] is false stays as it is, and so
    does every Electronics and Clothing product.  The keys of the store
    are distinct, as in any dict, and every Grocery carries a calendar
    date. *)
Theorem remove_expired_products_exact (today : datetime) (inv : Inventory) :
  dict_wf inv ->
  Forall (fun p => has_valid_date p = true) (dict_values inv) ->
  remove_expired_products today inv =
    (Return tt, filter (fun kv => negb (expired today (snd kv))) inv) /\
  forall pid p, dict_get pid inv = Some p ->
    let inv' := snd (remove_expired_products today inv) in
    (isinstance_Grocery p = true -> is_expired p today = Return true ->
       dict_get pid inv' = None /\ ~ In p (dict_values inv')) /\
    (isinstance_Grocery p = true -> is_expired p today = Return false ->
       dict_get pid inv' = Some p) /\
    (isinstance_Grocery p = false -> dict_get pid inv' = Some p).
Proof.
  intros Hwf Hvalid.
  pose proof (remove_expired_products_spec today inv Hwf Hvalid) as E.
  split; [exact E|]. intros pid p Hp. rewrite E. simpl.
  rewrite (dict_get_filter _ _ _ Hwf), Hp. unfold expired. simpl.
  split; [|split].
  - intros Hg He. split.
    + rewrite Hg, He. reflexivity.
    + intros Hin. unfold dict_values in Hin.
      apply in_map_iff in Hin as [[k' p'] [Ep Hin]]. simpl in Ep. subst p'.
      apply filter_In in Hin as [_ Hkeep]. simpl in Hkeep.
      rewrite Hg, He in Hkeep. discriminate.
  - intros Hg He. rewrite Hg, He. reflexivity.
  - intros Hg. rewrite Hg. reflexivity.
Qed.

Lemma remove_expired_products_exact_witness :
  remove_expired_products may_day_morning shop =
    (Return tt, [("E1", phone); ("C1", shirt)]) /\
  dict_get "G1" (snd (remove_expired_products may_day_morning shop)) = None.
Proof.
  assert (Hwf : dict_wf shop).
  { unfold dict_wf. simpl. repeat constructor; simpl; intuition discriminate. }
  assert (Hvalid : Forall (fun p => has_valid_date p = true) (dict_values shop)).
  { simpl. repeat constructor. }
  destruct (remove_expired_products_exact may_day_morning shop Hwf Hvalid)
    as [E Hall].
  split; [exact E|].
  assert (Hp : dict_get "G1" shop = Some milk) by reflexivity.
  destruct (Hall "G1" milk Hp) as [Hgone _].
  apply Hgone; reflexivity.
Defined.

(** In a store that holds a Grocery whose expiry date is no calendar
    date, the method raises and the expired Grocery of the scenario is
    still held afterwards: what C6 says of every store fails there. *)
Lemma remove_expired_products_keeps_expired :
  dict_wf stale_shop /\
  dict_get "G1" stale_shop = Some milk /\
  is_expired milk may_day_morning = Return true /\
  remove_expired_products may_day_morning stale_shop =
    (Raise (ValueError "time data does not match format"), stale_shop) /\
  dict_get "G1" (snd (remove_expired_products may_day_morning stale_shop))
    = Some milk.
Proof.
  split; [|repeat split].
  unfold dict_wf. simpl. repeat constructor; simpl; intuition discriminate.
Qed.

(** ** Inventory.save_to_file and Inventory.load_from_file *)

Lemma load_item_to_dict p inv : load_item (to_dict p) inv = store p inv.
Proof.
  destruct p as [[pid n [z|f] q] br w|[pid n [z|f] q] e|[pid n [z|f] q] sz m];
    reflexivity.
Qed.

Lemma for_each_load_saved (loaded saved : Inventory) :
  dict_wf (loaded ++ saved)%list -> keyed_by_id saved ->
  for_each (map to_dict (dict_values saved)) load_item loaded =
  (Return tt, (loaded ++ saved)%list).
Proof.
  revert loaded. induction saved as [|[k p] saved IH]; intros loaded Hwf Hk; simpl.
  - now rewrite app_nil_r.
  - inversion Hk as [|? ? Hkp Hk']; subst. simpl in Hkp. subst k.
    unfold bind. rewrite load_item_to_dict. unfold store, bind, get, put.
    assert (Habsent : ~ In (product_id p) (dict_keys loaded)).
    { unfold dict_wf, dict_keys in Hwf. rewrite map_app in Hwf. simpl in Hwf.
      apply NoDup_remove_2 in Hwf. intros Hin. apply Hwf.
      apply in_or_app. now left. }
    rewrite (dict_set_absent _ _ _ Habsent).
    rewrite IH.
    + now rewrite <- app_assoc.
    + now rewrite <- app_assoc.
    + exact Hk'.
Qed.


(** Each record gives back its product, whatever the class. *)
Lemma to_dict_round_trip (p : Product) :
  load_item (to_dict p) Inventory_init = (Return tt, [(product_id p, p)]).
Proof. now rewrite load_item_to_dict. Qed.

Lemma shop_wf : inventory_wf shop.
Proof.
  split.
  - unfold dict_wf. simpl. repeat constructor; simpl; intuition discriminate.
  - unfold keyed_by_id. simpl. repeat constructor.
Qed.


(** ** The shape of the store is kept by every operation *)

Lemma dict_keys_set_In {V} x k (v : V) d :
  In x (dict_keys (dict_set k v d)) <-> x = k \/ In x (dict_keys d).
Proof.
  induction d as [|[k' v'] d IH]; simpl.
  - intuition congruence.
  - destruct (String.eqb_spec k k') as [->|Hne]; simpl.
    + intuition congruence.
    + rewrite IH. intuition congruence.
Qed.

Lemma dict_set_wf {V} k (v : V) d : dict_wf d -> dict_wf (dict_set k v d).
Proof.
  unfold dict_wf. induction d as [|[k' v'] d IH]; simpl; intros H.
  - repeat constructor. intros [].
  - inversion H as [|? ? Hnotin Hnd]; subst.
    destruct (String.eqb_spec k k') as [->|Hne]; simpl.
    + now constructor.
    + constructor; [|now apply IH].
      intros Hin. apply dict_keys_set_In in Hin as [E|Hin]; [congruence|].
      now apply Hnotin.
Qed.

Lemma dict_set_items {V} (P : string * V -> Prop) k (v : V) d :
  P (k, v) -> Forall P d -> Forall P (dict_set k v d).
Proof.
  intros Hv. induction d as [|[k' v'] d IH]; simpl; intros H.
  - now constructor.
  - inversion H; subst.
    destruct (String.eqb_spec k k') as [->|_]; constructor; auto.
Qed.

Lemma store_wf p inv :
  inventory_wf inv -> inventory_wf (dict_set (product_id p) p inv).
Proof.
  intros [Hwf Hk]. split; [now apply dict_set_wf|].
  now apply dict_set_items.
Qed.

Lemma dict_del_wf inv pid : inventory_wf inv -> inventory_wf (dict_del pid inv).
Proof.
  intros [Hwf Hk]. rewrite (dict_del_filter _ _ Hwf). split.
  - now apply dict_keys_filter_NoDup.
  - unfold keyed_by_id in *. rewrite Forall_forall in *.
    intros kv Hin. apply filter_In in Hin as [Hin _]. now apply Hk.
Qed.

Lemma dict_get_keyed inv pid p :
  keyed_by_id inv -> dict_get pid inv = Some p -> product_id p = pid.
Proof.
  intros Hk Hp. apply dict_get_In in Hp. unfold keyed_by_id in Hk.
  rewrite Forall_forall in Hk. symmetry. exact (Hk _ Hp).
Qed.

Lemma dict_get_value {V} (P : V -> Prop) k (d : dict V) v :
  Forall P (dict_values d) -> dict_get k d = Some v -> P v.
Proof.
  intros H Hv. apply dict_get_In in Hv. rewrite Forall_forall in H.
  apply H. unfold dict_values. change v with (snd (k, v)). now apply in_map.
Qed.

(** Where [load_item] leaves the store: as it was, or with the product
    built from the record stored under its id. *)
Lemma load_item_cases item inv :
  snd (load_item item inv) = inv \/
  exists p, load_base item = Return (base p) /\
            snd (load_item item inv) = dict_set (product_id p) p inv.
Proof.
  unfold load_item, bind, lift, store, get, put, ret.
  destruct (getitem "type" item) as [ptype|]; simpl; [|now left].
  destruct (json_is_str ptype "Electronics").
  { destruct (load_base item) as [b|] eqn:Eb; simpl; [|now left].
    destruct (field_str "brand" item) as [br|]; simpl; [|now left].
    destruct (field_int "warranty_years" item) as [w|]; simpl; [|now left].
    right. now exists (Electronics b br w). }
  destruct (json_is_str ptype "Grocery").
  { destruct (load_base item) as [b|] eqn:Eb; simpl; [|now left].
    destruct (field_str "expiry_date" item) as [e|]; simpl; [|now left].
    right. now exists (Grocery b e). }
  destruct (json_is_str ptype "Clothing").
  { destruct (load_base item) as [b|] eqn:Eb; simpl; [|now left].
    destruct (field_str "size" item) as [sz|]; simpl; [|now left].
    destruct (field_str "material" item) as [m|]; simpl; [|now left].
    right. now exists (Clothing b sz m). }
  now left.
Qed.

Lemma load_base_quantity item b :
  load_base item = Return b ->
  dict_get "quantity_in_stock" item = Some (JInt (_quantity_in_stock b)).
Proof.
  unfold load_base.
  destruct (field_str "product_id" item); [|discriminate].
  destruct (field_str "name" item); [|discriminate].
  destruct (field_num "price" item); [|discriminate].
  unfold field_int, getitem.
  destruct (dict_get "quantity_in_stock" item) as [[s|z|q]|]; try discriminate.
  now intros [= <-].
Qed.

Lemma delitem_cases pid inv :
  snd (delitem pid inv) = inv \/ snd (delitem pid inv) = dict_del pid inv.
Proof.
  unfold delitem, bind, get, put, raise.
  destruct (dict_contains pid inv); simpl; auto.
Qed.

Lemma call_on_cases {A} pid (method : M Product A) inv :
  snd (call_on pid method inv) = inv \/
  exists p, dict_get pid inv = Some p /\
            snd (call_on pid method inv) = dict_set pid (snd (method p)) inv.
Proof.
  unfold call_on, getitem. destruct (dict_get pid inv) as [p|]; [|now left].
  right. exists p. split; [reflexivity|]. now destruct (method p).
Qed.

Lemma sell_cases q p :
  snd (sell q p) = p \/
  (q <= quantity_in_stock p /\
   snd (sell q p) = with_quantity p (quantity_in_stock p - q)).
Proof.
  destruct (Z_le_gt_dec q (quantity_in_stock p)) as [H|H].
  - right. split; [exact H|]. now rewrite sell_accepted.
  - left. rewrite sell_rejected by lia. reflexivity.
Qed.

Lemma product_id_sell q p : product_id (snd (sell q p)) = product_id p.
Proof.
  destruct (sell_cases q p) as [->|[_ ->]];
    [reflexivity|apply product_id_with_quantity].
Qed.

Lemma remove_expired_products_invariant (I : Inventory -> Prop) today inv :
  (forall pid s, I s -> I (dict_del pid s)) ->
  I inv -> I (snd (remove_expired_products today inv)).
Proof.
  intros Hdel Hinv. unfold remove_expired_products, bind, get, lift.
  destruct (expired_ids today (dict_items inv)) as [pids|]; [|exact Hinv].
  apply for_each_invariant; [|exact Hinv].
  intros pid s _ Hs. destruct (delitem_cases pid s) as [->| ->]; auto.
Qed.

Lemma load_from_file_invariant (I : Inventory -> Prop) filename fs inv :
  (forall data item s,
      dict_get filename (files fs) = Some (Json data) -> In item data ->
      I s -> I (snd (load_item item s))) ->
  I inv -> I (snd (load_from_file filename fs inv)).
Proof.
  intros Hitem Hinv. unfold load_from_file, bind, lift, json_load.
  destruct (dict_get filename (files fs)) as [[data|]|]; try exact Hinv.
  apply for_each_invariant; [|exact Hinv].
  intros item s Hin Hs. now apply (Hitem data).
Qed.

(** Every operation keeps the keys distinct and each product under its
    own id; the empty store has that shape. *)
Lemma run_preserves_wf (c : command) (s : session) :
  inventory_wf (fst s) -> inventory_wf (fst (snd (run c s))).
Proof.
  destruct s as [inv fs]. simpl. intros Hwf.
  destruct c as [p|pid|pid q|pid q|today|filename|filename]; simpl;
    unfold on_inventory, on_files; simpl.
  - unfold add_product, bind, get, put, raise.
    destruct (dict_contains (product_id p) inv); simpl;
      [exact Hwf|now apply store_wf].
  - unfold remove_product, bind, get, put, ret.
    destruct (dict_contains pid inv); simpl;
      [now apply dict_del_wf|exact Hwf].
  - destruct (sell_product pid q inv) as [r inv'] eqn:E. simpl.
    assert (E' : inv' = snd (sell_product pid q inv)) by now rewrite E.
    subst inv'. unfold sell_product.
    destruct (call_on_cases pid (sell q) inv) as [->|[p [Hp ->]]];
      [exact Hwf|].
    rewrite <- (dict_get_keyed inv pid p (proj2 Hwf) Hp) at 1.
    rewrite <- (product_id_sell q p). now apply store_wf.
  - destruct (restock_product pid q inv) as [r inv'] eqn:E. simpl.
    assert (E' : inv' = snd (restock_product pid q inv)) by now rewrite E.
    subst inv'. unfold restock_product.
    destruct (call_on_cases pid (restock q) inv) as [->|[p [Hp ->]]];
      [exact Hwf|].
    rewrite restock_spec. simpl.
    rewrite <- (dict_get_keyed inv pid p (proj2 Hwf) Hp) at 1.
    rewrite <- (product_id_with_quantity p (quantity_in_stock p + q)).
    now apply store_wf.
  - destruct (remove_expired_products today inv) as [r inv'] eqn:E. simpl.
    assert (E' : inv' = snd (remove_expired_products today inv))
      by now rewrite E.
    subst inv'. apply remove_expired_products_invariant; [|exact Hwf].
    intros pid s Hs. now apply dict_del_wf.
  - destruct (save_to_file inv filename fs). exact Hwf.
  - destruct (load_from_file filename fs inv) as [r inv'] eqn:E. simpl.
    assert (E' : inv' = snd (load_from_file filename fs inv)) by now rewrite E.
    subst inv'. apply load_from_file_invariant; [|exact Hwf].
    intros data item s _ _ Hs.
    destruct (load_item_cases item s) as [->|[p [_ ->]]];
      [exact Hs|now apply store_wf].
Qed.

Lemma Inventory_init_wf : inventory_wf Inventory_init.
Proof. split; constructor. Qed.

(** ** The stock is never negative *)

Lemma stock_nonneg_set pid p inv :
  0 <= quantity_in_stock p -> stock_nonneg inv ->
  stock_nonneg (dict_set pid p inv).
Proof. intros Hp. now apply dict_set_values. Qed.

Lemma stock_nonneg_del pid inv :
  stock_nonneg inv -> stock_nonneg (dict_del pid inv).
Proof. apply dict_del_values. Qed.

Lemma run_preserves_stock_nonneg c inv fs :
  stock_nonneg inv -> command_ok c fs ->
  stock_nonneg (fst (snd (run c (inv, fs)))).
Proof.
  intros Hinv Hc.
  destruct c as [p|pid|pid q|pid q|today|filename|filename]; simpl in *;
    unfold on_inventory, on_files; simpl.
  - unfold add_product, bind, get, put, raise.
    destruct (dict_contains (product_id p) inv); simpl;
      [exact Hinv|now apply stock_nonneg_set].
  - unfold remove_product, bind, get, put, ret.
    destruct (dict_contains pid inv); simpl;
      [now apply stock_nonneg_del|exact Hinv].
  - destruct (sell_product pid q inv) as [r inv'] eqn:E. simpl.
    assert (E' : inv' = snd (sell_product pid q inv)) by now rewrite E.
    subst inv'. unfold sell_product.
    destruct (call_on_cases pid (sell q) inv) as [->|[p [Hp ->]]];
      [exact Hinv|].
    apply stock_nonneg_set; [|exact Hinv].
    pose proof (dict_get_value _ _ _ _ Hinv Hp) as Hq. simpl in Hq.
    destruct (sell_cases q p) as [->|[Hle ->]]; [exact Hq|].
    rewrite quantity_with_quantity. lia.
  - destruct (restock_product pid q inv) as [r inv'] eqn:E. simpl.
    assert (E' : inv' = snd (restock_product pid q inv)) by now rewrite E.
    subst inv'. unfold restock_product.
    destruct (call_on_cases pid (restock q) inv) as [->|[p [Hp ->]]];
      [exact Hinv|].
    apply stock_nonneg_set; [|exact Hinv].
    pose proof (dict_get_value _ _ _ _ Hinv Hp) as Hq. simpl in Hq.
    rewrite restock_spec. simpl. rewrite quantity_with_quantity. lia.
  - destruct (remove_expired_products today inv) as [r inv'] eqn:E. simpl.
    assert (E' : inv' = snd (remove_expired_products today inv))
      by now rewrite E.
    subst inv'. apply remove_expired_products_invariant; [|exact Hinv].
    intros pid s. apply stock_nonneg_del.
  - destruct (save_to_file inv filename fs). exact Hinv.
  - destruct (load_from_file filename fs inv) as [r inv'] eqn:E. simpl.
    assert (E' : inv' = snd (load_from_file filename fs inv)) by now rewrite E.
    subst inv'. apply load_from_file_invariant; [|exact Hinv].
    intros data item s Hdata Hitem Hs.
    destruct (load_item_cases item s) as [->|[p [Hb ->]]]; [exact Hs|].
    apply stock_nonneg_set; [|exact Hs].
    apply load_base_quantity in Hb.
    specialize (Hc data Hdata). unfold document_ok in Hc.
    rewrite Forall_forall in Hc. specialize (Hc item Hitem).
    unfold record_stock_nonneg in Hc. now rewrite Hb in Hc.
Qed.

(** C4.  That every product has a stock that is not negative is an
    invariant of the store.  From a store where it holds, each operation
    -- adding a product whose stock is not negative, removing, selling,
    restocking by an amount that is not negative, removing the expired
    products, saving, loading a document whose quantities are not
    negative -- leaves a store where it holds, whatever the outcome of
    the operation.  A sale that would bring the stock of the product
    below zero is refused and the session is left exactly as it was. *)
Theorem stock_nonneg_invariant
    (c : command) (inv : Inventory) (fs : filesystem) :
  stock_nonneg inv ->
  command_ok c fs ->
  stock_nonneg (fst (snd (run c (inv, fs)))) /\
  (forall pid q p,
      c = Sell pid q -> dict_get pid inv = Some p ->
      quantity_in_stock p - q < 0 ->
      run c (inv, fs) = (Raise InsufficientStock, (inv, fs))).
Proof.
  intros Hinv Hc. split; [now apply run_preserves_stock_nonneg|].
  intros pid q p -> Hp Hq. simpl. unfold on_inventory, sell_product. simpl.
  rewrite (call_on_present _ _ _ _ Hp). rewrite sell_rejected by lia.
  simpl. now rewrite dict_set_same.
Qed.

Lemma shop_stock_nonneg : stock_nonneg shop.
Proof. unfold stock_nonneg. simpl. repeat constructor; discriminate. Qed.

Lemma stock_nonneg_invariant_witness :
  stock_nonneg (fst (snd (run (Sell "E1" 11) (shop, empty_disk)))) /\
  run (Sell "E1" 11) (shop, empty_disk) =
    (Raise InsufficientStock, (shop, empty_disk)).
Proof.
  destruct (stock_nonneg_invariant (Sell "E1" 11) shop empty_disk
              shop_stock_nonneg I) as [Hkeep Hrefuse].
  split; [exact Hkeep|].
  apply (Hrefuse "E1" 11 phone); reflexivity.
Defined.

(** *** Along a whole session *)

Lemma to_dict_quantity p :
  dict_get "quantity_in_stock" (to_dict p) = Some (JInt (quantity_in_stock p)).
Proof. now destruct p. Qed.

Lemma saved_document_ok inv :
  stock_nonneg inv -> document_ok (map to_dict (dict_values inv)).
Proof.
  unfold stock_nonneg, document_ok. intros H. apply Forall_map.
  apply (Forall_impl _ (P := fun p => 0 <= quantity_in_stock p)); [|exact H].
  intros p Hp. unfold record_stock_nonneg. now rewrite to_dict_quantity.
Qed.

Lemma run_preserves_session_ok c s :
  session_ok s -> caller_ok c -> session_ok (snd (run c s)).
Proof.
  destruct s as [inv fs]. intros [Hinv Hfs] Hc. split.
  - apply run_preserves_stock_nonneg; [exact Hinv|].
    destruct c; simpl in *; auto. intros data. apply Hfs.
  - simpl in *.
    destruct c as [p|pid|pid q|pid q|today|filename|filename]; simpl;
      unfold on_inventory, on_files; simpl;
      try match goal with |- context [let (_, _) := ?m in _] =>
            destruct m; exact Hfs end.
    unfold save_to_file, json_dump, bind, get, put, raise.
    destruct (existsb _ _); simpl; [exact Hfs|].
    intros f data. simpl.
    destruct (String.eqb_spec f filename) as [->|Hne].
    + rewrite dict_get_set_same. intros [= <-]. now apply saved_document_ok.
    + rewrite dict_get_set_other by exact Hne. apply Hfs.
Qed.

(** As long as the caller adds and restocks amounts that are not
    negative, no sequence of operations brings a stock below zero: the
    documents that the session saves are the ones it loads. *)
Lemma run_all_session_ok cs s :
  session_ok s -> Forall caller_ok cs -> session_ok (run_all cs s).
Proof.
  revert s. induction cs as [|c cs IH]; intros s Hs Hcs; simpl; [exact Hs|].
  inversion Hcs; subst. apply IH; [|assumption].
  now apply run_preserves_session_ok.
Qed.

(** * More of the code: removal, composition of the operations, values *)

(** ** More facts about dicts *)

Lemma dict_get_del_other {V} k k' (d : dict V) :
  k' <> k -> dict_get k' (dict_del k d) = dict_get k' d.
Proof.
  intros Hne. induction d as [|[k0 v0] d IH]; simpl; [reflexivity|].
  destruct (String.eqb_spec k k0) as [->|Hk]; simpl.
  - destruct (String.eqb_spec k' k0); [contradiction|reflexivity].
  - destruct (String.eqb_spec k' k0); [reflexivity|exact IH].
Qed.

Lemma dict_get_del_same {V} k (d : dict V) :
  dict_wf d -> dict_get k (dict_del k d) = None.
Proof.
  intros Hwf. rewrite (dict_del_filter _ _ Hwf), (dict_get_filter _ _ _ Hwf).
  destruct (dict_get k d); [|reflexivity]. simpl. now rewrite String.eqb_refl.
Qed.

Lemma dict_del_absent {V} k (d : dict V) :
  ~ In k (dict_keys d) -> dict_del k d = d.
Proof.
  induction d as [|[k' v'] d IH]; simpl; [reflexivity|]. intros H.
  destruct (String.eqb_spec k k') as [->|_].
  - exfalso. apply H. now left.
  - f_equal. apply IH. intros Hin. apply H. now right.
Qed.

Lemma dict_del_last {V} k (v : V) (d : dict V) :
  ~ In k (dict_keys d) -> dict_del k (d ++ [(k, v)])%list = d.
Proof.
  induction d as [|[k' v'] d IH]; simpl; intros H.
  - now rewrite String.eqb_refl.
  - destruct (String.eqb_spec k k') as [->|_].
    + exfalso. apply H. now left.
    + f_equal. apply IH. intros Hin. apply H. now right.
Qed.

Lemma dict_set_set {V} k (v v' : V) (d : dict V) :
  dict_set k v (dict_set k v' d) = dict_set k v d.
Proof.
  induction d as [|[k0 v0] d IH]; simpl.
  - now rewrite String.eqb_refl.
  - destruct (String.eqb_spec k k0) as [->|Hne]; simpl.
    + now rewrite String.eqb_refl.
    + destruct (String.eqb_spec k k0); [contradiction|now rewrite IH].
Qed.

Lemma dict_keys_set_in_place {V} k (v v0 : V) (d : dict V) :
  dict_get k d = Some v0 -> dict_keys (dict_set k v d) = dict_keys d.
Proof.
  intros H. apply dict_keys_set_present.
  destruct (in_dec string_dec k (dict_keys d)) as [Hin|Hout]; [exact Hin|].
  apply dict_get_None in Hout. congruence.
Qed.

Lemma with_quantity_twice p a b :
  with_quantity (with_quantity p a) b = with_quantity p b.
Proof. now destruct p. Qed.

Lemma with_quantity_same p : with_quantity p (quantity_in_stock p) = p.
Proof. now destruct p as [[]| []| []]. Qed.

(** ** Inventory.remove_product *)

(** X1.  [remove_product] never raises.  With an id that is not a key
    the store is left as it was; with an id that is a key, that entry
    alone goes: the id is no longer a key, every other id keeps its
    product, and the entries that stay keep their order. *)
Theorem remove_product_spec (inv : Inventory) (pid : string) :
  fst (remove_product pid inv) = Return tt /\
  (dict_contains pid inv = false -> snd (remove_product pid inv) = inv) /\
  (forall k, k <> pid ->
     dict_get k (snd (remove_product pid inv)) = dict_get k inv) /\
  (dict_wf inv ->
     dict_get pid (snd (remove_product pid inv)) = None /\
     snd (remove_product pid inv) =
       filter (fun kv => negb (String.eqb pid (fst kv))) inv).
Proof.
  unfold remove_product, bind, get, put, ret.
  destruct (dict_contains pid inv) eqn:E; simpl.
  - split; [reflexivity|]. split; [discriminate|]. split.
    + intros k Hk. now apply dict_get_del_other.
    + intros Hwf. split; [now apply dict_get_del_same|now apply dict_del_filter].
  - split; [reflexivity|]. split; [reflexivity|]. split; [reflexivity|].
    intros Hwf. split.
    + unfold dict_contains in E. now destruct (dict_get pid inv).
    + rewrite <- (dict_del_filter _ _ Hwf). symmetry. apply dict_del_absent.
      now apply dict_contains_false.
Qed.

Lemma remove_product_spec_witness :
  snd (remove_product "X9" shop) = shop /\
  dict_get "G1" (snd (remove_product "G1" shop)) = None.
Proof.
  destruct (remove_product_spec shop "X9") as (_ & Habsent & _ & _).
  destruct (remove_product_spec shop "G1") as (_ & _ & _ & Hpresent).
  split.
  - apply Habsent. reflexivity.
  - destruct (Hpresent (proj1 shop_wf)) as [Hgone _]. exact Hgone.
Defined.

(** X2.  Adding a product under a new id and removing that id again
    gives back the store as it was. *)
Theorem add_then_remove (p : Product) (inv : Inventory) :
  dict_contains (product_id p) inv = false ->
  add_product p inv = (Return tt, (inv ++ [(product_id p, p)])%list) /\
  remove_product (product_id p) (snd (add_product p inv)) = (Return tt, inv).
Proof.
  intros H. rewrite (add_product_absent _ _ H). split; [reflexivity|]. simpl.
  unfold remove_product, bind, get, put.
  assert (Hin : dict_contains (product_id p) (inv ++ [(product_id p, p)])%list
                = true).
  { apply dict_contains_true. unfold dict_keys. rewrite map_app.
    apply in_or_app. right. now left. }
  rewrite Hin. f_equal. apply dict_del_last. now apply dict_contains_false.
Qed.

Lemma add_then_remove_witness :
  remove_product "G2" (snd (add_product eggs shop)) = (Return tt, shop).
Proof.
  assert (H : dict_contains (product_id eggs) shop = false) by reflexivity.
  destruct (add_then_remove eggs shop H) as [_ Hback]. exact Hback.
Defined.

(** ** How selling and restocking compose *)

(** X3.  For a product that is held, selling a quantity that the stock
    covers and restocking the same quantity gives back the store as it
    was; restocking first and selling the same quantity afterwards does
    so for every quantity, negative ones included, as long as the stock
    was not negative. *)
Theorem sell_restock_inverse
    (inv : Inventory) (pid : string) (p : Product) (q : Z) :
  dict_get pid inv = Some p ->
  (q <= quantity_in_stock p ->
     fst (sell_product pid q inv) = Return tt /\
     restock_product pid q (snd (sell_product pid q inv)) = (Return tt, inv)) /\
  (0 <= quantity_in_stock p ->
     sell_product pid q (snd (restock_product pid q inv)) = (Return tt, inv)).
Proof.
  intros Hp. unfold sell_product, restock_product. split.
  - intros Hq. rewrite (call_on_present _ _ _ _ Hp), (sell_accepted _ _ Hq).
    cbn [fst snd]. split; [reflexivity|].
    rewrite (call_on_present _ _ _ _ (dict_get_set_same _ _ _)).
    rewrite restock_spec. cbn [fst snd].
    rewrite dict_set_set, with_quantity_twice, quantity_with_quantity.
    replace (quantity_in_stock p - q + q) with (quantity_in_stock p) by lia.
    rewrite with_quantity_same. f_equal. now apply dict_set_same.
  - intros Hq. rewrite (call_on_present _ _ _ _ Hp), restock_spec. cbn [fst snd].
    rewrite (call_on_present _ _ _ _ (dict_get_set_same _ _ _)).
    rewrite sell_accepted by (rewrite quantity_with_quantity; lia).
    cbn [fst snd]. rewrite dict_set_set, with_quantity_twice, quantity_with_quantity.
    replace (quantity_in_stock p + q - q) with (quantity_in_stock p) by lia.
    rewrite with_quantity_same. f_equal. now apply dict_set_same.
Qed.

Lemma sell_restock_inverse_witness :
  restock_product "E1" 3 (snd (sell_product "E1" 3 shop)) = (Return tt, shop) /\
  sell_product "E1" (-50) (snd (restock_product "E1" (-50) shop))
    = (Return tt, shop).
Proof.
  assert (Hp : dict_get "E1" shop = Some phone) by reflexivity.
  destruct (sell_restock_inverse shop "E1" phone 3 Hp) as [Hsr _].
  destruct (sell_restock_inverse shop "E1" phone (-50) Hp) as [_ Hrs].
  split; [|apply Hrs; vm_compute; discriminate].
  assert (Hq : 3 <= quantity_in_stock phone) by (vm_compute; discriminate).
  destruct (Hsr Hq) as [_ Hback]. exact Hback.
Defined.

(** X4.  [restock_product] checks nothing about the amount: for an id
    that is a key it always returns, and an amount below the negated
    stock leaves a product with a negative stock in the store. *)
Theorem restock_not_validated
    (inv : Inventory) (pid : string) (p : Product) (amount : Z) :
  dict_get pid inv = Some p ->
  restock_product pid amount inv =
    (Return tt,
     dict_set pid (with_quantity p (quantity_in_stock p + amount)) inv) /\
  (quantity_in_stock p + amount < 0 ->
     ~ stock_nonneg (snd (restock_product pid amount inv))).
Proof.
  intros Hp. unfold restock_product.
  rewrite (call_on_present _ _ _ _ Hp), restock_spec. simpl.
  split; [reflexivity|]. intros Hneg Hinv.
  pose proof (dict_get_value _ _ _ _ Hinv (dict_get_set_same _ _ _)) as H.
  simpl in H. rewrite quantity_with_quantity in H. lia.
Qed.

Lemma restock_not_validated_witness :
  ~ stock_nonneg (snd (restock_product "E1" (-11) shop)).
Proof.
  assert (Hp : dict_get "E1" shop = Some phone) by reflexivity.
  destruct (restock_not_validated shop "E1" phone (-11) Hp) as [_ Hneg].
  apply Hneg. reflexivity.
Defined.

Lemma call_on_frame {A} pid (method : M Product A) inv :
  dict_keys (snd (call_on pid method inv)) = dict_keys inv /\
  forall k, k <> pid ->
            dict_get k (snd (call_on pid method inv)) = dict_get k inv.
Proof.
  destruct (call_on_cases pid method inv) as [->|[p [Hp ->]]].
  - split; reflexivity.
  - split; [now apply (dict_keys_set_in_place _ _ p)|].
    intros k Hk. now apply dict_get_set_other.
Qed.

(** X5.  [sell_product] and [restock_product] touch at most the product
    stored under the id they are given: the keys of the store and their
    order stay, every other id keeps its product, and the product under
    the id changes in its stock only, whether the call returns or
    raises. *)
Theorem sell_restock_frame (inv : Inventory) (pid : string) (q : Z) :
  let sold := snd (sell_product pid q inv) in
  let restocked := snd (restock_product pid q inv) in
  dict_keys sold = dict_keys inv /\
  dict_keys restocked = dict_keys inv /\
  (forall k, k <> pid ->
     dict_get k sold = dict_get k inv /\
     dict_get k restocked = dict_get k inv) /\
  (forall p, dict_get pid inv = Some p ->
     exists n m, dict_get pid sold = Some (with_quantity p n) /\
                 dict_get pid restocked = Some (with_quantity p m)).
Proof.
  unfold sell_product, restock_product. cbv zeta.
  destruct (call_on_frame pid (sell q) inv) as [Ks Os].
  destruct (call_on_frame pid (restock q) inv) as [Kr Or].
  split; [exact Ks|]. split; [exact Kr|]. split.
  - intros k Hk. split; [now apply Os|now apply Or].
  - intros p Hp. rewrite !(call_on_present _ _ _ _ Hp). cbn [fst snd].
    rewrite !dict_get_set_same, restock_spec. cbn [fst snd].
    destruct (sell_cases q p) as [->|[_ ->]].
    + exists (quantity_in_stock p), (quantity_in_stock p + q).
      now rewrite with_quantity_same.
    + now exists (quantity_in_stock p - q), (quantity_in_stock p + q).
Qed.

(** ** The value of the store under the operations, for prices in ints *)

Lemma exact_sum_app ps ps' :
  exact_sum (ps ++ ps') = exact_sum ps + exact_sum ps'.
Proof. induction ps as [|p ps IH]; simpl; lia. Qed.

Lemma exact_sum_set pid p p' z z' (inv : Inventory) :
  dict_get pid inv = Some p -> price p = Int z -> price p' = Int z' ->
  exact_sum (dict_values (dict_set pid p' inv)) =
  exact_sum (dict_values inv) - z * quantity_in_stock p
  + z' * quantity_in_stock p'.
Proof.
  intros Hp Hz Hz'. induction inv as [|[k v] inv IH]; simpl in *;
    [discriminate|].
  destruct (String.eqb_spec pid k) as [->|_]; simpl.
  - injection Hp as ->. rewrite Hz, Hz'. lia.
  - rewrite (IH Hp). lia.
Qed.

Lemma exact_sum_del pid p z (inv : Inventory) :
  dict_get pid inv = Some p -> price p = Int z ->
  exact_sum (dict_values (dict_del pid inv)) =
  exact_sum (dict_values inv) - z * quantity_in_stock p.
Proof.
  intros Hp Hz. induction inv as [|[k v] inv IH]; simpl in *; [discriminate|].
  destruct (String.eqb_spec pid k) as [->|_]; simpl.
  - injection Hp as ->. rewrite Hz. lia.
  - rewrite (IH Hp). lia.
Qed.

Lemma int_priced_with_quantity p q : int_priced p -> int_priced (with_quantity p q).
Proof. intros [z Hz]. exists z. now rewrite price_with_quantity. Qed.

Lemma int_priced_del pid (inv : Inventory) :
  Forall int_priced (dict_values inv) ->
  Forall int_priced (dict_values (dict_del pid inv)).
Proof. apply dict_del_values. Qed.

(** X6.  In a store whose prices are all ints, a sale that the stock
    covers lowers the value of the store by exactly the price of the
    product times the quantity sold.  In any store, a sale that is
    refused, for an unknown id or for insufficient stock, leaves the
    value as it was. *)
Theorem total_after_sell
    (inv : Inventory) (pid : string) (q : Z) :
  (forall p z,
     Forall int_priced (dict_values inv) ->
     dict_get pid inv = Some p -> price p = Int z ->
     q <= quantity_in_stock p ->
     exists total,
       total_inventory_value inv = Return (Int total) /\
       total_inventory_value (snd (sell_product pid q inv)) =
       Return (Int (total - z * q))) /\
  (fst (sell_product pid q inv) <> Return tt ->
     total_inventory_value (snd (sell_product pid q inv)) =
     total_inventory_value inv).
Proof.
  unfold sell_product. split.
  - intros p z Hall Hp Hz Hq. exists (exact_sum (dict_values inv)).
    split; [now apply total_exact|].
    rewrite (call_on_present _ _ _ _ Hp), (sell_accepted _ _ Hq).
    cbn [fst snd]. rewrite total_exact.
    + rewrite (exact_sum_set _ _ _ z z _ Hp Hz)
        by (now rewrite price_with_quantity).
      rewrite quantity_with_quantity. do 2 f_equal. lia.
    + apply dict_set_values; [|exact Hall].
      apply int_priced_with_quantity. now exists z.
  - destruct (dict_get pid inv) as [p|] eqn:Hp.
    + rewrite (call_on_present _ _ _ _ Hp). cbn [fst snd].
      destruct (Z_le_gt_dec q (quantity_in_stock p)) as [Hq|Hq].
      * rewrite (sell_accepted _ _ Hq). cbn [fst]. congruence.
      * rewrite sell_rejected by lia. cbn [snd]. intros _.
        now rewrite (dict_set_same _ _ _ Hp).
    + intros _. rewrite call_on_absent; [reflexivity|].
      unfold dict_contains. now rewrite Hp.
Qed.

Lemma total_after_sell_witness :
  (exists total,
      total_inventory_value kiosk = Return (Int total) /\
      total_inventory_value (snd (sell_product "E1" 3 kiosk)) =
      Return (Int (total - 500 * 3))) /\
  total_inventory_value (snd (sell_product "E1" 11 shop)) =
  total_inventory_value shop.
Proof.
  destruct (total_after_sell kiosk "E1" 3) as [Hsold _].
  destruct (total_after_sell shop "E1" 11) as [_ Hrefused].
  split.
  - apply (Hsold phone 500 kiosk_int_priced); try reflexivity.
    vm_compute. discriminate.
  - apply Hrefused. vm_compute. discriminate.
Defined.

(** X7.  In a store whose prices are all ints, adding a product priced
    in an int under a new id raises the value of the store by exactly
    the value of the product, and removing a product that is held lowers
    it by exactly the value of that product.  In any store, an addition
    that is refused and the removal of an unknown id leave the value as
    it was. *)
Theorem total_after_add_remove (inv : Inventory) :
  (forall p z,
     Forall int_priced (dict_values inv) -> price p = Int z ->
     dict_contains (product_id p) inv = false ->
     exists total,
       total_inventory_value inv = Return (Int total) /\
       total_inventory_value (snd (add_product p inv)) =
       Return (Int (total + z * quantity_in_stock p))) /\
  (forall p, dict_contains (product_id p) inv = true ->
     total_inventory_value (snd (add_product p inv)) =
     total_inventory_value inv) /\
  (forall pid p z,
     Forall int_priced (dict_values inv) ->
     dict_get pid inv = Some p -> price p = Int z ->
     exists total,
       total_inventory_value inv = Return (Int total) /\
       total_inventory_value (snd (remove_product pid inv)) =
       Return (Int (total - z * quantity_in_stock p))) /\
  (forall pid, dict_get pid inv = None ->
     total_inventory_value (snd (remove_product pid inv)) =
     total_inventory_value inv).
Proof.
  split; [|split; [|split]].
  - intros p z Hall Hz H. exists (exact_sum (dict_values inv)).
    split; [now apply total_exact|].
    rewrite (add_product_absent _ _ H). cbn [snd]. rewrite total_exact.
    + unfold dict_values. rewrite map_app, exact_sum_app. simpl.
      rewrite Hz. do 2 f_equal. lia.
    + unfold dict_values. rewrite map_app. apply Forall_app. split;
        [exact Hall|]. repeat constructor. now exists z.
  - intros p H. now rewrite (add_product_present _ _ H).
  - intros pid p z Hall Hp Hz. exists (exact_sum (dict_values inv)).
    split; [now apply total_exact|].
    unfold remove_product, bind, get, put, dict_contains.
    rewrite Hp. cbn [snd]. rewrite total_exact.
    + now rewrite (exact_sum_del _ _ z _ Hp Hz).
    + now apply int_priced_del.
  - intros pid Hp. unfold remove_product, bind, get, ret, dict_contains.
    now rewrite Hp.
Qed.

Lemma total_after_add_remove_witness :
  (exists total,
      total_inventory_value [("E1", phone)] = Return (Int total) /\
      total_inventory_value (snd (add_product eggs [("E1", phone)])) =
      Return (Int (total + 3 * 12))) /\
  (exists total,
      total_inventory_value kiosk = Return (Int total) /\
      total_inventory_value (snd (remove_product "G1" kiosk)) =
      Return (Int (total - 2 * 5))).
Proof.
  destruct (total_after_add_remove [("E1", phone)]) as (Hadd & _).
  destruct (total_after_add_remove kiosk) as (_ & _ & Hremove & _).
  split.
  - apply (Hadd eggs 3); try reflexivity.
    repeat constructor. now exists 500.
  - apply (Hremove "G1" milk 2 kiosk_int_priced); reflexivity.
Defined.

(** ** Inventory.search_by_name *)








(** ** Inventory.search_by_type, over the three classes *)

(** X9.  The searches for the three class names share out the store:
    every product held is found by exactly one of them, as often as it
    is held.  A type that is none of the three names up to case finds
    nothing. *)
Theorem search_by_type_partition (inv : Inventory) :
  (exists es gs cs,
      fst (search_by_type "electronics" inv) = Return es /\
      fst (search_by_type "grocery" inv) = Return gs /\
      fst (search_by_type "clothing" inv) = Return cs /\
      Permutation (es ++ gs ++ cs) (dict_values inv)) /\
  (forall s, lower s <> "electronics" -> lower s <> "grocery" ->
             lower s <> "clothing" ->
             search_by_type s inv = (Return [], inv)).
Proof.
  split.
  - do 3 eexists. repeat (split; [reflexivity|]).
    induction (dict_values inv) as [|p ps IH]; [constructor|].
    destruct p; simpl.
    + now constructor.
    + symmetry. apply Permutation_cons_app. now symmetry.
    + symmetry. rewrite app_assoc. apply Permutation_cons_app.
      rewrite <- app_assoc. now symmetry.
  - intros s He Hg Hc. unfold search_by_type, bind, get, ret. do 2 f_equal.
    induction (dict_values inv) as [|p ps IH]; [reflexivity|].
    simpl. rewrite IH.
    destruct (String.eqb_spec (lower (class_name p)) (lower s)) as [E|_];
      [|reflexivity].
    destruct p; cbn [class_name] in E;
      [change (lower "Electronics") with "electronics" in E
      |change (lower "Grocery") with "grocery" in E
      |change (lower "Clothing") with "clothing" in E]; congruence.
Qed.

Lemma search_by_type_partition_witness :
  search_by_type "toys" shop = (Return [], shop).
Proof.
  destruct (search_by_type_partition shop) as [_ Hnone].
  apply Hnone; discriminate.
Defined.

(** ** Expiry: failure, the passing of time, repetition *)

Lemma strptime_raises s e :
  strptime s = Raise e -> exists msg, e = ValueError msg.
Proof.
  unfold strptime.
  destruct (parse_year s) as [[y rest]|]; [|intros [= <-]; eauto].
  destruct (split_dash rest) as [[ms ds]|]; [|intros [= <-]; eauto].
  destruct (parse_month ms), (parse_day ds); try (intros [= <-]; eauto).
  destruct (_ && _); [discriminate|intros [= <-]; eauto].
Qed.

Lemma expired_ids_raises today (inv : Inventory) e :
  expired_ids today inv = Raise e -> exists msg, e = ValueError msg.
Proof.
  induction inv as [|[k p] inv IH]; simpl; [discriminate|].
  destruct p as [b br w|b ed|b sz m]; simpl.
  - destruct (expired_ids today inv); [discriminate|].
    intros [= <-]. now apply IH.
  - destruct (strptime ed) as [d|e'] eqn:Ed.
    + destruct (expired_ids today inv); [discriminate|].
      intros [= <-]. now apply IH.
    + intros [= <-]. now apply (strptime_raises ed).
  - destruct (expired_ids today inv); [discriminate|].
    intros [= <-]. now apply IH.
Qed.

Lemma expired_ids_invalid today (inv : Inventory) :
  Exists (fun p => has_valid_date p = false) (dict_values inv) ->
  exists e, expired_ids today inv = Raise e.
Proof.
  induction inv as [|[k p] inv IH]; simpl; intros H; [inversion H|].
  inversion H as [? ? Hp|? ? Hrest]; subst.
  - destruct p as [b br w|b ed|b sz m]; simpl in *; try discriminate.
    destruct (strptime ed); [discriminate|eauto].
  - destruct (IH Hrest) as [e He]. rewrite He.
    destruct (if isinstance_Grocery p then is_expired p today else Return false);
      eauto.
Qed.

(** X10.  When some Grocery of the store carries an expiry date, in
    ASCII characters, that is not a calendar date in the form
    year-month-day, [remove_expired_products] raises a [ValueError] and
    removes nothing, not even the groceries that are expired. *)
Theorem remove_expired_products_malformed (today : datetime) (inv : Inventory) :
  Exists (fun p => malformed_date p = true) (dict_values inv) ->
  exists msg,
    remove_expired_products today inv = (Raise (ValueError msg), inv).
Proof.
  intros H.
  assert (H' : Exists (fun p => has_valid_date p = false) (dict_values inv)).
  { apply Exists_exists in H as [p [Hin Hp]]. apply Exists_exists.
    exists p. split; [exact Hin|].
    destruct p as [b br w|b ed|b sz m]; simpl in Hp; try discriminate.
    apply andb_true_iff in Hp as [_ Hp]. now apply negb_true_iff in Hp. }
  destruct (expired_ids_invalid today inv H') as [e He].
  destruct (expired_ids_raises today inv e He) as [msg ->].
  exists msg. now apply remove_expired_products_raises.
Qed.

Lemma remove_expired_products_malformed_witness :
  exists msg,
    remove_expired_products may_day_morning stale_shop =
    (Raise (ValueError msg), stale_shop).
Proof.
  apply (remove_expired_products_malformed may_day_morning stale_shop).
  apply Exists_exists. exists stale. split.
  - simpl. tauto.
  - reflexivity.
Defined.

Lemma lex_ltb_trans a b c :
  lex_ltb a b = true -> lex_ltb b c = true -> lex_ltb a c = true.
Proof.
  revert b c. induction a as [|x a IH]; intros [|y b] [|z c]; simpl;
    try discriminate.
  rewrite !orb_true_iff, !andb_true_iff, !Z.ltb_lt, !Z.eqb_eq.
  intros [H|[H H']] [G|[G G']].
  - left. lia.
  - left. lia.
  - left. lia.
  - right. split; [lia|]. now apply (IH b c).
Qed.

(** X11.  Expiry is monotone in time: a Grocery for which [is_expired]
    answers true at one reading of the clock is expired at every later
    reading. *)
Theorem is_expired_monotone (p : Product) (t1 t2 : datetime) :
  is_expired p t1 = Return true ->
  datetime_ltb t1 t2 = true ->
  is_expired p t2 = Return true.
Proof.
  destruct p as [b br w|b ed|b sz m]; simpl; try discriminate.
  destruct (strptime ed) as [d|]; [|discriminate].
  intros [= H1] H2. f_equal. unfold datetime_ltb in *.
  exact (lex_ltb_trans _ _ _ H1 H2).
Qed.

Lemma is_expired_monotone_witness :
  is_expired milk (mkDatetime 2024 5 1 10 30 0 1) = Return true.
Proof.
  apply (is_expired_monotone milk may_day_morning); reflexivity.
Defined.




(** ** Inventory.load_from_file: skipped records, failure half-way,
    merging *)

Lemma load_item_skipped item inv :
  skipped item = true -> load_item item inv = (Return tt, inv).
Proof.
  unfold skipped, load_item, bind, lift, getitem.
  destruct (dict_get "type" item) as [ptype|]; [|discriminate].
  destruct (json_is_str ptype "Electronics"), (json_is_str ptype "Grocery"),
    (json_is_str ptype "Clothing"); simpl; try discriminate.
  reflexivity.
Qed.

Lemma for_each_load_skipped data inv :
  for_each (filter (fun item => negb (skipped item)) data) load_item inv =
  for_each data load_item inv.
Proof.
  revert inv. induction data as [|item data IH]; intros inv; simpl;
    [reflexivity|].
  destruct (skipped item) eqn:E; simpl.
  - unfold bind. rewrite (load_item_skipped _ _ E). apply IH.
  - unfold bind. destruct (load_item item inv) as [[[]|e] inv'];
      [apply IH|reflexivity].
Qed.

Lemma filter_all_skipped (data : document) :
  forallb skipped data = true ->
  filter (fun item => negb (skipped item)) data = [].
Proof.
  induction data as [|item data IH]; simpl; [reflexivity|].
  intros H. apply andb_true_iff in H as [-> Hrest]. simpl. now apply IH.
Qed.

(** X13.  [load_from_file] passes over the records whose type is none of
    the three class names: the load does what it does on the document
    without them, and a document of such records only leaves the store
    as it was. *)
Theorem load_skips_unknown_types
    (filename : string) (fs : filesystem) (data : document) (inv : Inventory) :
  dict_get filename (files fs) = Some (Json data) ->
  let known := filter (fun item => negb (skipped item)) data in
  let fs' := mkFs (dict_set filename (Json known) (files fs)) (unwritable fs) in
  load_from_file filename fs inv = load_from_file filename fs' inv /\
  (forallb skipped data = true ->
     load_from_file filename fs inv = (Return tt, inv)).
Proof.
  intros H. cbv zeta. unfold load_from_file, bind, lift, json_load.
  cbn [files]. rewrite H, dict_get_set_same. split.
  - symmetry. apply for_each_load_skipped.
  - intros Hall. rewrite <- for_each_load_skipped.
    now rewrite (filter_all_skipped _ Hall).
Qed.

Lemma load_skips_unknown_types_witness :
  load_from_file inventory_json toy_disk shop = (Return tt, shop).
Proof.
  assert (H : dict_get inventory_json (files toy_disk)
              = Some (Json [toy_record; toy_record])) by reflexivity.
  destruct (load_skips_unknown_types inventory_json toy_disk _ shop H)
    as [_ Hnone].
  apply Hnone. reflexivity.
Defined.

Lemma load_item_raises item inv e inv' :
  load_item item inv = (Raise e, inv') -> inv' = inv.
Proof.
  unfold load_item, bind, lift, store, get, put, ret.
  destruct (getitem "type" item) as [ptype|]; simpl; [|now inversion 1].
  destruct (json_is_str ptype "Electronics").
  { destruct (load_base item); simpl; [|now inversion 1].
    destruct (field_str "brand" item); simpl; [|now inversion 1].
    destruct (field_int "warranty_years" item); simpl; now inversion 1. }
  destruct (json_is_str ptype "Grocery").
  { destruct (load_base item); simpl; [|now inversion 1].
    destruct (field_str "expiry_date" item); simpl; now inversion 1. }
  destruct (json_is_str ptype "Clothing").
  { destruct (load_base item); simpl; [|now inversion 1].
    destruct (field_str "size" item); simpl; [|now inversion 1].
    destruct (field_str "material" item); simpl; now inversion 1. }
  now inversion 1.
Qed.

Lemma for_each_stops {S A} (body : A -> M S unit) xs y zs s s1 e s2 :
  for_each xs body s = (Return tt, s1) ->
  body y s1 = (Raise e, s2) ->
  for_each (xs ++ y :: zs)%list body s = (Raise e, s2).
Proof.
  revert s. induction xs as [|x xs IH]; intros s; simpl.
  - intros [= <-] Hy. unfold bind. now rewrite Hy.
  - unfold bind. destruct (body x s) as [[[]|e'] s']; [|discriminate].
    intros Hxs Hy. now apply IH.
Qed.

(** X14.  [load_from_file] is not all or nothing.  When a record lacks
    a key that the loop reads, the load raises the [KeyError] of that
    key, the records before it stay merged into the store and the
    records after it are not read. *)
Theorem load_stops_half_way
    (filename : string) (fs : filesystem) (before after : document)
    (bad : record) (inv merged : Inventory) (key : string) :
  dict_get filename (files fs) = Some (Json (before ++ bad :: after)%list) ->
  for_each before load_item inv = (Return tt, merged) ->
  fst (load_item bad merged) = Raise (KeyError key) ->
  load_from_file filename fs inv = (Raise (KeyError key), merged).
Proof.
  intros Hfile Hbefore Hbad.
  unfold load_from_file, bind, lift, json_load. rewrite Hfile.
  apply (for_each_stops _ _ _ _ _ merged); [exact Hbefore|].
  destruct (load_item bad merged) as [r s] eqn:E. simpl in Hbad. subst r.
  now rewrite (load_item_raises _ _ _ _ E).
Qed.

Lemma load_stops_half_way_witness :
  load_from_file inventory_json broken_disk Inventory_init =
  (Raise (KeyError "type"), shop).
Proof.
  apply (load_stops_half_way inventory_json broken_disk
           (map to_dict (dict_values shop)) [to_dict eggs] typeless_record
           Inventory_init shop "type"); reflexivity.
Defined.

(** ** Loading into a store that holds products *)

Lemma for_each_load_update (saved inv : Inventory) :
  keyed_by_id saved ->
  for_each (map to_dict (dict_values saved)) load_item inv =
  (Return tt, dict_update saved inv).
Proof.
  revert inv. induction saved as [|[k p] saved IH]; intros inv Hk; simpl;
    [reflexivity|].
  inversion Hk as [|? ? Hkp Hk']; subst. simpl in Hkp. subst k.
  unfold bind. rewrite load_item_to_dict. unfold store, bind, get, put.
  now apply IH.
Qed.

Lemma dict_get_update {V} k (e d : dict V) :
  dict_wf e ->
  dict_get k (dict_update e d) =
  match dict_get k e with Some v => Some v | None => dict_get k d end.
Proof.
  unfold dict_wf, dict_update. revert d.
  induction e as [|[k0 v0] e IH]; intros d Hnd; simpl; [reflexivity|].
  inversion Hnd as [|? ? Hnotin Hnd']; subst.
  rewrite (IH _ Hnd').
  destruct (String.eqb_spec k k0) as [->|Hne].
  - apply dict_get_None in Hnotin. rewrite Hnotin. apply dict_get_set_same.
  - destruct (dict_get k e); [reflexivity|now apply dict_get_set_other].
Qed.

Lemma dict_update_wf {V} (e d : dict V) : dict_wf d -> dict_wf (dict_update e d).
Proof.
  unfold dict_update. revert d.
  induction e as [|[k0 v0] e IH]; intros d Hd; simpl; [exact Hd|].
  apply IH. now apply dict_set_wf.
Qed.

(** X15.  Loading a saved store into a store that already holds products
    merges the two as [dict.update] does: an id of the file gets the
    product of the file, whether the store held that id or not, every
    other id keeps its product, and no id comes to be held twice. *)
Theorem load_merges
    (filename : string) (fs : filesystem) (saved inv : Inventory) :
  inventory_wf saved ->
  dict_get filename (files fs) = Some (Json (map to_dict (dict_values saved))) ->
  load_from_file filename fs inv = (Return tt, dict_update saved inv) /\
  (forall k, dict_get k (dict_update saved inv) =
             match dict_get k saved with
             | Some p => Some p
             | None => dict_get k inv
             end) /\
  (dict_wf inv -> dict_wf (dict_update saved inv)).
Proof.
  intros [Hwf Hk] Hfile. split; [|split].
  - unfold load_from_file, bind, lift, json_load. rewrite Hfile.
    now apply for_each_load_update.
  - intros k. now apply dict_get_update.
  - apply dict_update_wf.
Qed.

Lemma load_merges_witness :
  load_from_file inventory_json shop_disk [("G1", eggs); ("G2", eggs)] =
  (Return tt, [("G1", milk); ("G2", eggs); ("E1", phone); ("C1", shirt)]).
Proof.
  assert (Hfile : dict_get inventory_json (files shop_disk) =
                  Some (Json (map to_dict (dict_values shop))))
    by reflexivity.
  destruct (load_merges inventory_json shop_disk shop
              [("G1", eggs); ("G2", eggs)] shop_wf Hfile) as [E _].
  exact E.
Defined.

(** ** What holds in every store that a session can reach *)

Lemma run_all_preserves_wf cs s :
  inventory_wf (fst s) -> inventory_wf (fst (run_all cs s)).
Proof.
  revert s. induction cs as [|c cs IH]; intros s Hs; simpl; [exact Hs|].
  apply IH. now apply run_preserves_wf.
Qed.

(** X16.  Whatever operations are run, in whatever order and with
    whatever outcomes, on a store that started empty, and whatever the
    files hold, the keys of the store are distinct and every product is
    stored under its own id. *)
Theorem reachable_inventory_wf (cs : list command) (fs : filesystem) :
  inventory_wf (fst (run_all cs (Inventory_init, fs))).
Proof. apply run_all_preserves_wf. exact Inventory_init_wf. Qed.

(** X17.  In a session that starts with an empty store and files whose
    quantities are not negative, no sequence of operations brings a
    stock below zero, as long as products are added with a stock and
    restocked by an amount that are not negative: what the session
    loads is what it saved or what the files held. *)
Theorem reachable_stock_nonneg (cs : list command) (fs : filesystem) :
  disk_ok fs ->
  Forall caller_ok cs ->
  stock_nonneg (fst (run_all cs (Inventory_init, fs))) /\
  disk_ok (snd (run_all cs (Inventory_init, fs))).
Proof.
  intros Hfs Hcs. apply (run_all_session_ok cs (Inventory_init, fs)).
  - split; [constructor|exact Hfs].
  - exact Hcs.
Qed.

Lemma reachable_stock_nonneg_witness :
  stock_nonneg
    (fst (run_all [Add phone; Sell "E1" 11; Save inventory_json;
                   Restock "E1" 5; Load inventory_json]
                  (Inventory_init, empty_disk))).
Proof.
  assert (Hfs : disk_ok empty_disk) by (intros f data H; discriminate H).
  assert (Hcs : Forall caller_ok
                  [Add phone; Sell "E1" 11; Save inventory_json;
                   Restock "E1" 5; Load inventory_json]).
  { repeat constructor; simpl; discriminate. }
  destruct (reachable_stock_nonneg _ empty_disk Hfs Hcs) as [H _]. exact H.
Defined.

(** ** The start of a session *)

(** X18.  The start of a session never fails.  Without the file
    [inventory.json], or with one that is not JSON, the session starts
    with an empty store; after a save of a store of the shape that the
    methods keep, the next session starts with that store. *)
Theorem session_start_spec (fs : filesystem) :
  inventory_wf (session_start fs) /\
  (dict_get inventory_json (files fs) = None -> session_start fs = Inventory_init) /\
  (dict_get inventory_json (files fs) = Some NotJson ->
     session_start fs = Inventory_init) /\
  (forall inv fs0,
      inventory_wf inv ->
      save_to_file inv inventory_json fs0 = (Return tt, fs) ->
      session_start fs = inv).
Proof.
  unfold session_start. split; [|split; [|split]].
  - pose proof (run_preserves_wf (Load inventory_json) (Inventory_init, fs)
                  Inventory_init_wf) as H.
    simpl in H. unfold on_inventory in H. simpl in H.
    now destruct (load_from_file inventory_json fs Inventory_init).
  - intros H. unfold load_from_file, bind, lift, json_load. now rewrite H.
  - intros H. unfold load_from_file, bind, lift, json_load. now rewrite H.
  - intros inv fs0 [Hwf Hk] Hsave.
    unfold save_to_file, json_dump, bind, get, put, raise in Hsave.
    destruct (existsb _ _); [discriminate|]. injection Hsave as <-.
    unfold load_from_file, bind, lift, json_load. cbn [files].
    rewrite dict_get_set_same. now rewrite for_each_load_saved.
Qed.

Lemma session_start_spec_witness :
  session_start empty_disk = Inventory_init /\ session_start shop_disk = shop.
Proof.
  destruct (session_start_spec empty_disk) as (_ & Hnone & _).
  destruct (session_start_spec shop_disk) as (_ & _ & _ & Hsaved).
  split.
  - apply Hnone. reflexivity.
  - apply (Hsaved shop empty_disk shop_wf). reflexivity.
Defined.

(** ** The dates that the Add page stores *)

Lemma digit_value_char n :
  0 <= n <= 9 ->
  digit_value (digit_char n) = Some n /\
  Ascii.eqb (digit_char n) "-" = false /\
  Ascii.eqb (digit_char n) " " = false.
Proof.
  intros H.
  assert (Hall : Forall (fun k => digit_value (digit_char k) = Some k /\
                                  Ascii.eqb (digit_char k) "-" = false /\
                                  Ascii.eqb (digit_char k) " " = false)
                        (map Z.of_nat (seq 0 10)))
    by (repeat constructor).
  rewrite Forall_forall in Hall. apply Hall.
  rewrite <- (Z2Nat.id n) by lia. apply in_map. apply in_seq. lia.
Qed.

Lemma two_digits_range v :
  0 <= v <= 99 -> 0 <= v / 10 <= 9 /\ 0 <= v mod 10 <= 9 /\
                  10 * (v / 10) + v mod 10 = v.
Proof. intros H. Z.div_mod_to_equations. lia. Qed.

Lemma parse_upto_two_digits bound v :
  1 <= v <= bound -> bound <= 99 -> parse_upto bound (two_digits v) = Some v.
Proof.
  intros Hv Hb. destruct (two_digits_range v) as (Hq & Hr & E); [lia|].
  unfold parse_upto, two_digits.
  destruct (digit_value_char _ Hq) as (-> & _ & _).
  destruct (digit_value_char _ Hr) as (-> & _ & _).
  cbv zeta. rewrite E.
  destruct (Z.leb_spec 1 v); [|lia]. destruct (Z.leb_spec v bound); [|lia].
  reflexivity.
Qed.

Lemma parse_day_two_digits v :
  1 <= v <= 31 -> parse_day (two_digits v) = Some v.
Proof.
  intros Hv. destruct (two_digits_range v) as (Hq & _ & _); [lia|].
  unfold parse_day. change (two_digits v) with
    (String (digit_char (v / 10)) (String (digit_char (v mod 10)) EmptyString)).
  destruct (digit_value_char _ Hq) as (_ & _ & ->).
  apply parse_upto_two_digits; lia.
Qed.

Lemma parse_year_four_digits y rest :
  1000 <= y <= 9999 ->
  parse_year (two_digits (y / 100) ++ two_digits (y mod 100) ++ "-" ++ rest)
  = Some (y, rest).
Proof.
  intros Hy.
  assert (Hh : 0 <= y / 100 <= 99) by (Z.div_mod_to_equations; lia).
  assert (Hl : 0 <= y mod 100 <= 99) by (Z.div_mod_to_equations; lia).
  destruct (two_digits_range _ Hh) as (H1 & H2 & E1).
  destruct (two_digits_range _ Hl) as (H3 & H4 & E2).
  unfold two_digits. cbn [append]. unfold parse_year.
  destruct (digit_value_char _ H1) as (-> & _ & _).
  destruct (digit_value_char _ H2) as (-> & _ & _).
  destruct (digit_value_char _ H3) as (-> & _ & _).
  destruct (digit_value_char _ H4) as (-> & _ & _).
  cbn [Ascii.eqb Bool.eqb]. do 2 f_equal.
  Z.div_mod_to_equations. lia.
Qed.

Lemma split_dash_two_digits v rest :
  0 <= v <= 99 ->
  split_dash (two_digits v ++ "-" ++ rest) = Some (two_digits v, rest).
Proof.
  intros Hv. destruct (two_digits_range v Hv) as (Hq & Hr & _).
  unfold two_digits. cbn [append split_dash].
  destruct (digit_value_char _ Hq) as (_ & -> & _).
  destruct (digit_value_char _ Hr) as (_ & -> & _).
  reflexivity.
Qed.

Lemma days_in_month_range y m : 28 <= days_in_month y m <= 31.
Proof.
  unfold days_in_month.
  destruct (m =? 2); [destruct (is_leap y); lia|].
  destruct (_ || _); lia.
Qed.

Lemma strptime_strftime y m d h mi s us :
  calendar_date y m d ->
  strptime (strftime (mkDatetime y m d h mi s us)) =
  Return (mkDatetime y m d 0 0 0 0).
Proof.
  intros (Hy & Hm & Hd). pose proof (days_in_month_range y m) as Hdim.
  unfold strptime, strftime. cbn [year month day].
  rewrite (parse_year_four_digits _ _ Hy).
  rewrite split_dash_two_digits by lia.
  unfold parse_month. rewrite parse_upto_two_digits by lia.
  rewrite parse_day_two_digits by lia.
  destruct (Z.leb_spec 1 y); [|lia].
  destruct (Z.leb_spec d (days_in_month y m)); [|lia].
  reflexivity.
Qed.

(** X19.  The expiry date that the Add page stores for a day of the
    calendar reads back as that day: [strptime] of [strftime] gives the
    midnight that starts it, so [is_expired] returns for such a Grocery
    at any reading of the clock, and adding it keeps a store in which
    [remove_expired_products] finds a calendar date in every Grocery. *)
Theorem add_page_dates_valid
    (pid name : string) (price : number) (quantity y m d : Z)
    (expiry today : datetime) (inv : Inventory) :
  calendar_date y m d ->
  year expiry = y -> month expiry = m -> day expiry = d ->
  strptime (strftime expiry) = Return (mkDatetime y m d 0 0 0 0) /\
  is_expired (Grocery (mkBase pid name price quantity) (strftime expiry)) today
    = Return (datetime_ltb (mkDatetime y m d 0 0 0 0) today) /\
  (Forall (fun p => has_valid_date p = true) (dict_values inv) ->
   Forall (fun p => has_valid_date p = true)
          (dict_values (snd (add_grocery_page pid name price quantity expiry inv)))).
Proof.
  intros Hdate Hy Hm Hd.
  assert (E : strptime (strftime expiry) = Return (mkDatetime y m d 0 0 0 0)).
  { destruct expiry as [y' m' d' h mi s us]. simpl in Hy, Hm, Hd. subst.
    now apply strptime_strftime. }
  split; [exact E|]. split.
  - simpl. now rewrite E.
  - intros Hvalid. unfold add_grocery_page, add_product, bind, get, put, raise.
    destruct (dict_contains _ inv); cbn [snd]; [exact Hvalid|].
    apply dict_set_values; [|exact Hvalid]. simpl. now rewrite E.
Qed.

Lemma add_page_dates_valid_witness :
  strptime (strftime may_day_morning) = Return may_day_midnight.
Proof.
  assert (Hdate : calendar_date 2024 5 1)
    by (unfold calendar_date; repeat split; vm_compute; discriminate).
  destruct (add_page_dates_valid "G9" "Rice" (Float 1.5) 1 2024 5 1
              may_day_morning may_day_morning shop
              Hdate eq_refl eq_refl eq_refl) as [E _].
  exact E.
Defined.

(** ** __str__ and Inventory.list_all_products *)



(** ** Records, and sales in several steps *)

(** X21.  [to_dict] loses nothing: two products with the same record
    are the same product, class and every attribute. *)
Theorem to_dict_injective (p p' : Product) :
  to_dict p = to_dict p' -> p = p'.
Proof.
  intros H.
  pose proof (load_item_to_dict p Inventory_init) as E.
  rewrite H, load_item_to_dict in E.
  unfold store, bind, get, put in E. simpl in E. congruence.
Qed.

Lemma to_dict_injective_witness :
  with_quantity (with_quantity phone 3) 10 = phone.
Proof.
  apply (to_dict_injective (with_quantity (with_quantity phone 3) 10) phone).
  reflexivity.
Defined.

(** X22.  Sales and restocks of one product add up: two sales in a row
    that the stock covers do what one sale of the sum does, and two
    restocks in a row do what one restock of the sum does. *)
Theorem sell_restock_additive
    (inv : Inventory) (pid : string) (p : Product) (a b : Z) :
  dict_get pid inv = Some p ->
  (a <= quantity_in_stock p -> b <= quantity_in_stock p - a ->
     sell_product pid b (snd (sell_product pid a inv)) =
     sell_product pid (a + b) inv) /\
  restock_product pid b (snd (restock_product pid a inv)) =
  restock_product pid (a + b) inv.
Proof.
  intros Hp. unfold sell_product, restock_product. split.
  - intros Ha Hb.
    rewrite !(call_on_present _ _ _ _ Hp), (sell_accepted _ _ Ha).
    cbn [fst snd].
    rewrite (call_on_present _ _ _ _ (dict_get_set_same _ _ _)).
    rewrite sell_accepted by (rewrite quantity_with_quantity; lia).
    rewrite sell_accepted by lia. cbn [fst snd].
    rewrite dict_set_set, with_quantity_twice, quantity_with_quantity.
    do 3 f_equal. lia.
  - rewrite !(call_on_present _ _ _ _ Hp), !restock_spec. cbn [fst snd].
    rewrite (call_on_present _ _ _ _ (dict_get_set_same _ _ _)).
    rewrite restock_spec. cbn [fst snd].
    rewrite dict_set_set, with_quantity_twice, quantity_with_quantity.
    do 3 f_equal. lia.
Qed.

Lemma sell_restock_additive_witness :
  sell_product "E1" 4 (snd (sell_product "E1" 3 shop)) =
  sell_product "E1" (3 + 4) shop.
Proof.
  assert (Hp : dict_get "E1" shop = Some phone) by reflexivity.
  destruct (sell_restock_additive shop "E1" phone 3 4 Hp) as [Hsell _].
  apply Hsell; vm_compute; discriminate.
Defined.
